(** * conda_build_all.artefact_destination

    A shallow embedding of [conda_build_all/artefact_destination.py] and the
    properties of its two destinations, [DirectoryDestination] and
    [AnacondaClientChannelDest].

    Python strings are [string]; [os.environ] and the file system are finite
    maps; calls into collaborators ([binstar_client], [inspect_binstar],
    [build], [logging], [shutil]) are recorded as events of a trace, and
    exceptions are values of [exn] carried by [outcome]. *)

From Stdlib Require Import String Ascii List Bool Arith Lia.
From stdpp Require Import base option gmap strings list.

Local Open Scope string_scope.
Local Open Scope list_scope.

(** ** Python [str] operations used by the module *)

Module PyStr.

(** [s.startswith(sub)] *)
Fixpoint startswith (sub s : string) : bool :=
  match sub, s with
  | EmptyString, _ => true
  | String a sub', String b s' => if Ascii.eqb a b then startswith sub' s' else false
  | String _ _, EmptyString => false
  end.

(** [sub in s]: the substring test of Python's [str.__contains__]. *)
Fixpoint contains (sub s : string) : bool :=
  startswith sub s ||
  match s with
  | EmptyString => false
  | String _ s' => contains sub s'
  end.

(** [s.split(sep)] for a one-character separator: never empty, one more
    field than there are occurrences of [sep], empty fields kept. *)
Fixpoint split (sep : ascii) (s : string) : list string :=
  match s with
  | EmptyString => [EmptyString]
  | String c s' =>
      if Ascii.eqb c sep then EmptyString :: split sep s'
      else match split sep s' with
           | field :: fields => String c field :: fields
           | [] => [String c EmptyString]
           end
  end.

(** [s.count(c)] for a one-character [c]. *)
Fixpoint count (c : ascii) (s : string) : nat :=
  match s with
  | EmptyString => 0
  | String a s' => (if Ascii.eqb a c then 1 else 0) + count c s'
  end.

(** [s.rfind(c) + 1] for a one-character [c]: the index just after the
    last occurrence, 0 when there is none. *)
Fixpoint after_last (c : ascii) (s : string) : nat :=
  match s with
  | EmptyString => 0
  | String a s' =>
      match after_last c s' with
      | 0 => if Ascii.eqb a c then 1 else 0
      | S i => S (S i)
      end
  end.

(** [s[i:]] *)
Fixpoint drop (i : nat) (s : string) : string :=
  match i, s with
  | 0, _ => s
  | S i', String _ s' => drop i' s'
  | S _, EmptyString => EmptyString
  end.

(** [s.endswith(c)] for a one-character [c]. *)
Fixpoint endswith (c : ascii) (s : string) : bool :=
  match s with
  | EmptyString => false
  | String a EmptyString => Ascii.eqb a c
  | String _ s' => endswith c s'
  end.

End PyStr.

(** ** Exceptions and outcomes *)

Inductive exn : Type :=
| ValueError (msg : string)
| IOError (msg : string)
| OSError (msg : string)
| NotImplementedError (msg : string).

Inductive outcome (A : Type) : Type :=
| Ok (a : A)
| Raise (e : exn).
Arguments Ok {A} a.
Arguments Raise {A} e.

(** A computation over a mutable state [S] that may raise.  The state
    reached when the exception is raised is kept: Python does not roll back
    the assignments made before a [raise]. *)
Definition M (S A : Type) : Type := S -> outcome A * S.

Definition ret {S A} (a : A) : M S A := fun s => (Ok a, s).

Definition bind {S A B} (m : M S A) (k : A -> M S B) : M S B :=
  fun s =>
    match m s with
    | (Ok a, s') => k a s'
    | (Raise e, s') => (Raise e, s')
    end.

Definition raise {S A} (e : exn) : M S A := fun s => (Raise e, s).
Definition get {S} : M S S := fun s => (Ok s, s).
Definition modify {S} (f : S -> S) : M S unit := fun s => (Ok tt, f s).

Declare Scope py_scope.
Delimit Scope py_scope with py.
Notation "x <- m ;; k" := (bind m (fun x => k))
  (at level 100, m at next level, right associativity) : py_scope.
Notation "m ;;; k" := (bind m (fun _ => k))
  (at level 100, right associativity) : py_scope.

(** ** The class [AnacondaClientChannelDest]: construction *)

Record AnacondaClientChannelDest (Cli : Type) : Type := mkChannelDest {
  token : option string;
  owner : string;
  channel : string;
  _cli : option Cli;
  site : option string
}.
Arguments mkChannelDest {Cli}.
Arguments token {Cli}.
Arguments owner {Cli}.
Arguments channel {Cli}.
Arguments _cli {Cli}.
Arguments site {Cli}.

(** [AnacondaClientChannelDest.__init__] *)
Definition init_channel_dest {Cli} (token : option string) (owner channel : string)
    (site : option string) : AnacondaClientChannelDest Cli :=
  {| token := token; owner := owner; channel := channel; _cli := None; site := site |}.

(** [owner, _, channel = fields]: unpacking into three targets needs exactly
    three values. *)
Definition unpack3 (fields : list string) : outcome (string * string * string) :=
  match fields with
  | [a; b; c] => Ok (a, b, c)
  | [] | [_] | [_; _] => Raise (ValueError "not enough values to unpack")
  | _ => Raise (ValueError "too many values to unpack")
  end.

(** [AnacondaClientChannelDest.from_spec]; [environ] is [os.environ]. *)
Definition from_spec {Cli} (environ : gmap string string) (spec : string)
    (site : option string) : outcome (AnacondaClientChannelDest Cli) :=
  let token := environ !! "BINSTAR_TOKEN" in
  if PyStr.contains "/" spec then
    match unpack3 (PyStr.split "/" spec) with
    | Ok (owner, _, channel) => Ok (init_channel_dest token owner channel site)
    | Raise e => Raise e
    end
  else
    let '(owner, channel) := (spec, "main") in
    Ok (init_channel_dest token owner channel site).

(** ** Collaborators of [AnacondaClientChannelDest.make_available] *)

(** [conda_build.metadata.MetaData], as far as this module reads it. *)
Record MetaData : Type := mkMeta {
  name : string;   (* meta.name() *)
  dist : string    (* meta.dist() *)
}.

(** The object returned by [binstar_client.utils.get_binstar]; [cli_id] is
    its identity, so that two constructions give two different clients. *)
Record Binstar : Type := mkBinstar {
  cli_id : nat;
  cli_token : option string;
  cli_site : option string
}.

(** The remote service behind [inspect_binstar] and [build], over a state
    [R] of the server.  The client argument is the Python value of
    [self._cli], hence an [option]. *)
Class Remote (R : Type) : Type := {
  distribution_exists : R -> option Binstar -> string -> MetaData -> bool;
  distribution_exists_on_channel :
    R -> option Binstar -> string -> MetaData -> string -> bool;
  add_distribution_to_channel :
    R -> option Binstar -> string -> MetaData -> string -> R;
  upload : R -> option Binstar -> MetaData -> string -> list string -> R
}.

(** What a call of [make_available] does to the outside, in order. *)
Inductive event : Type :=
| EvGetBinstar (ns_token ns_site : option string) (made : Binstar)
| EvDistributionExists (cli : option Binstar) (owner : string) (meta : MetaData)
| EvDistributionExistsOnChannel
    (cli : option Binstar) (owner : string) (meta : MetaData) (channel : string)
| EvAddDistributionToChannel
    (cli : option Binstar) (owner : string) (meta : MetaData) (channel : string)
| EvUpload (cli : option Binstar) (meta : MetaData) (owner : string)
    (channels : list string)
| EvLogInfo (msg : string)
| EvLogWarn (msg : string).

Record World (R : Type) : Type := mkWorld {
  remote : R;           (* state of the anaconda server *)
  next_id : nat;        (* identity of the next object allocated *)
  trace : list event    (* events so far, oldest first *)
}.
Arguments mkWorld {R}.
Arguments remote {R}.
Arguments next_id {R}.
Arguments trace {R}.

Definition is_link (e : event) : bool :=
  match e with EvAddDistributionToChannel _ _ _ _ => true | _ => false end.
Definition is_upload (e : event) : bool :=
  match e with EvUpload _ _ _ _ => true | _ => false end.
Definition is_get_binstar (e : event) : bool :=
  match e with EvGetBinstar _ _ _ => true | _ => false end.
Definition is_log (e : event) : bool :=
  match e with EvLogInfo _ | EvLogWarn _ => true | _ => false end.

(** Number of events of a kind in a trace. *)
Definition occurrences (kind : event -> bool) (t : list event) : nat :=
  length (List.filter kind t).

(** The client an event was performed with, for the calls that take one. *)
Definition client_of (e : event) : option (option Binstar) :=
  match e with
  | EvDistributionExists c _ _ | EvDistributionExistsOnChannel c _ _ _
  | EvAddDistributionToChannel c _ _ _ | EvUpload c _ _ _ => Some c
  | EvGetBinstar _ _ _ | EvLogInfo _ | EvLogWarn _ => None
  end.

Section ChannelDest.

Context {R : Type} `{Remote R}.

(** State of a run: the instance [self] and the outside world. *)
Definition St : Type := AnacondaClientChannelDest Binstar * World R.

Definition emit (e : event) : M St unit :=
  modify (fun '(self, w) =>
    (self, {| remote := remote w; next_id := next_id w; trace := trace w ++ [e] |})).

Definition read_self : M St (AnacondaClientChannelDest Binstar) :=
  fun s => (Ok (fst s), s).

(** [self._cli = v] *)
Definition assign_cli (v : option Binstar) : M St unit :=
  modify (fun '(self, w) =>
    ({| token := token self; owner := owner self; channel := channel self;
        _cli := v; site := site self |}, w)).

(** [binstar_client.utils.get_binstar(Namespace(token=.., site=..))] *)
Definition get_binstar (ns_token ns_site : option string) : M St Binstar :=
  fun '(self, w) =>
    let c := {| cli_id := next_id w; cli_token := ns_token; cli_site := ns_site |} in
    (Ok c, (self, {| remote := remote w; next_id := S (next_id w);
                     trace := trace w ++ [EvGetBinstar ns_token ns_site c] |})).

(** A query of the server: its answer, and the event. *)
Definition query (ask : R -> bool) (e : event) : M St bool :=
  fun '(self, w) =>
    (Ok (ask (remote w)),
     (self, {| remote := remote w; next_id := next_id w; trace := trace w ++ [e] |})).

(** A command to the server: the new server state, and the event. *)
Definition command (act : R -> R) (e : event) : M St unit :=
  fun '(self, w) =>
    (Ok tt,
     (self, {| remote := act (remote w); next_id := next_id w;
               trace := trace w ++ [e] |})).

Definition log_info (msg : string) : M St unit := emit (EvLogInfo msg).
Definition log_warn (msg : string) : M St unit := emit (EvLogWarn msg).

(** ['http://' in built_dist_path or 'https://' in built_dist_path] *)
Definition mentions_http (built_dist_path : string) : bool :=
  PyStr.contains "http://" built_dist_path || PyStr.contains "https://" built_dist_path.

Local Open Scope py_scope.

(** [AnacondaClientChannelDest.make_available] *)
Definition make_available (meta : MetaData) (built_dist_path : string)
    (just_built : bool) : M St unit :=
  self <- read_self ;;
  (match _cli self with
   | None =>
       c <- get_binstar (token self) (site self) ;;
       assign_cli (Some c)
   | Some _ => ret tt
   end) ;;;
  self <- read_self ;;
  already_with_owner <-
    query (fun r => distribution_exists r (_cli self) (owner self) meta)
          (EvDistributionExists (_cli self) (owner self) meta) ;;
  already_on_channel <-
    query (fun r => distribution_exists_on_channel r (_cli self) (owner self) meta
                      (channel self))
          (EvDistributionExistsOnChannel (_cli self) (owner self) meta (channel self)) ;;
  if already_on_channel && negb just_built then
    log_info ("Nothing to be done for " ++ name meta ++ " - it is already on "
              ++ owner self ++ "/" ++ channel self ++ ".")
  else if already_on_channel && just_built then
    log_warn ("Assuming the distribution we've just built and the one on "
              ++ owner self ++ "/" ++ channel self ++ " are the same.")
  else if already_with_owner then
    (if just_built then
       log_warn ("Assuming the distribution we've just built and the one owned by "
                 ++ owner self ++ " are the same.")
     else ret tt) ;;;
    log_info ("Adding existing " ++ dist meta ++ " to the "
              ++ owner self ++ "/" ++ channel self ++ " channel.") ;;;
    command (fun r => add_distribution_to_channel r (_cli self) (owner self) meta
                        (channel self))
            (EvAddDistributionToChannel (_cli self) (owner self) meta (channel self))
  else if just_built then
    log_info ("Uploading " ++ name meta ++ " to the " ++ channel self ++ " channel.") ;;;
    command (fun r => upload r (_cli self) meta (owner self) [channel self])
            (EvUpload (_cli self) meta (owner self) [channel self])
  else if negb just_built then
    if mentions_http built_dist_path then
      raise (NotImplementedError "cross owner copying not yet implemented.")
    else ret tt
  else ret tt.

End ChannelDest.
Arguments St R : clear implicits.

(** The outcome, the instance and the world after one call. *)
Definition call_outcome {R} `{Remote R} (meta : MetaData) (path : string)
    (just_built : bool) (s : St R) : outcome unit :=
  fst (make_available meta path just_built s).
Definition call_state {R} `{Remote R} (meta : MetaData) (path : string)
    (just_built : bool) (s : St R) : St R :=
  snd (make_available meta path just_built s).

(** The events a call added to the trace. *)
Definition new_events {R} (before after : World R) : list event :=
  List.skipn (length (trace before)) (trace after).

(** The client a call works with: the cached one, or the one it constructs. *)
Definition client_in_use {R} (s : AnacondaClientChannelDest Binstar * World R) : Binstar :=
  match _cli (fst s) with
  | Some c => c
  | None => {| cli_id := next_id (snd s); cli_token := token (fst s);
               cli_site := site (fst s) |}
  end.

(** The two flags [make_available] computes from the server. *)
Definition already_with_owner {R} `{Remote R} (meta : MetaData) (s : St R) : bool :=
  distribution_exists (remote (snd s)) (Some (client_in_use s)) (owner (fst s)) meta.
Definition already_on_channel {R} `{Remote R} (meta : MetaData) (s : St R) : bool :=
  distribution_exists_on_channel (remote (snd s)) (Some (client_in_use s))
    (owner (fst s)) meta (channel (fst s)).

(** ** One call of [make_available], in closed form *)

Section CallEffects.

Context {R : Type} `{Remote R}.

(** [self] once [self._cli] holds the client [c]. *)
Definition with_cli (self : AnacondaClientChannelDest Binstar) (c : Binstar) :
  AnacondaClientChannelDest Binstar :=
{| token := token self; owner := owner self; channel := channel self;
   _cli := Some c; site := site self |}.

(** The events every call starts with: the construction of the client
  when none is cached, then the two queries. *)
Definition preamble (meta : MetaData) (s : St R) : list event :=
let c := client_in_use s in
(match _cli (fst s) with
 | None => [EvGetBinstar (token (fst s)) (site (fst s)) c]
 | Some _ => []
 end) ++
[EvDistributionExists (Some c) (owner (fst s)) meta;
 EvDistributionExistsOnChannel (Some c) (owner (fst s)) meta (channel (fst s))].

(** The events of the branch taken, after the preamble. *)
Definition branch_events (meta : MetaData) (path : string) (just_built : bool)
  (s : St R) : list event :=
let self := fst s in
let c := Some (client_in_use s) in
if already_on_channel meta s then
  if just_built then
    [EvLogWarn ("Assuming the distribution we've just built and the one on "
                ++ owner self ++ "/" ++ channel self ++ " are the same.")]
  else
    [EvLogInfo ("Nothing to be done for " ++ name meta ++ " - it is already on "
                ++ owner self ++ "/" ++ channel self ++ ".")]
else if already_with_owner meta s then
  (if just_built then
     [EvLogWarn ("Assuming the distribution we've just built and the one owned by "
                 ++ owner self ++ " are the same.")]
   else []) ++
  [EvLogInfo ("Adding existing " ++ dist meta ++ " to the "
              ++ owner self ++ "/" ++ channel self ++ " channel.");
   EvAddDistributionToChannel c (owner self) meta (channel self)]
else if just_built then
  [EvLogInfo ("Uploading " ++ name meta ++ " to the " ++ channel self ++ " channel.");
   EvUpload c meta (owner self) [channel self]]
else [].

(** The server after the branch taken. *)
Definition branch_remote (meta : MetaData) (just_built : bool) (s : St R) : R :=
let self := fst s in
let c := Some (client_in_use s) in
if already_on_channel meta s then remote (snd s)
else if already_with_owner meta s then
  add_distribution_to_channel (remote (snd s)) c (owner self) meta (channel self)
else if just_built then upload (remote (snd s)) c meta (owner self) [channel self]
else remote (snd s).

(** Whether the call ends in the [raise] of the last branch. *)
Definition cross_owner_copy (meta : MetaData) (path : string) (just_built : bool)
  (s : St R) : bool :=
negb (already_on_channel meta s) && negb (already_with_owner meta s)
&& negb just_built && mentions_http path.

(** One call, in closed form. *)
End CallEffects.

(** ** The cached client, over a sequence of calls *)

(** The calls a user makes on one instance, one after the other.  The user
    goes on with the same instance whether a call returned or raised. *)
Fixpoint run_calls {R} `{Remote R} (calls : list (MetaData * string * bool))
    (s : St R) : St R :=
  match calls with
  | [] => s
  | (meta, path, just_built) :: rest =>
      run_calls rest (call_state meta path just_built s)
  end.

(** The event, if it was performed with a client, was performed with [c]. *)
Definition uses_client (c : Binstar) (e : event) : Prop :=
  match client_of e with
  | Some v => v = Some c
  | None => True
  end.

(** ** A small concrete server, to run the model on *)

Module ToyServer.

(** One distribution held by an owner, and the channels it is on. *)
Record entry : Type := mkEntry {
  e_owner : string;
  e_dist : string;
  e_channels : list string
}.

Definition holds (o : string) (m : MetaData) (e : entry) : bool :=
  String.eqb (e_owner e) o && String.eqb (e_dist e) (dist m).

Definition on_channel (ch : string) (e : entry) : bool :=
  existsb (String.eqb ch) (e_channels e).

#[global] Instance toy_remote : Remote (list entry) := {
  distribution_exists r _ o m := existsb (holds o m) r;
  distribution_exists_on_channel r _ o m ch :=
    existsb (fun e => holds o m e && on_channel ch e) r;
  add_distribution_to_channel r _ o m ch :=
    List.map (fun e => if holds o m e
                       then {| e_owner := e_owner e; e_dist := e_dist e;
                               e_channels := ch :: e_channels e |}
                       else e) r;
  upload r _ m o chs := {| e_owner := o; e_dist := dist m; e_channels := chs |} :: r
}.

Definition pkg : MetaData := {| name := "pkg"; dist := "pkg-1.0-0" |}.

Definition alice : AnacondaClientChannelDest Binstar :=
  init_channel_dest (Some "secret") "alice" "main" None.

Definition world (r : list entry) : World (list entry) :=
  {| remote := r; next_id := 0; trace := [] |}.

Definition on_main : list entry := [mkEntry "alice" "pkg-1.0-0" ["main"]].
Definition on_dev : list entry := [mkEntry "alice" "pkg-1.0-0" ["dev"]].
Definition elsewhere : list entry := [mkEntry "bob" "pkg-1.0-0" ["main"]].

Definition local_path : string := "/opt/conda-bld/linux-64/pkg-1.0-0.tar.bz2".
Definition url_path : string := "https://conda.anaconda.org/bob/linux-64/pkg-1.0-0.tar.bz2".

End ToyServer.

(** ** The file system under [DirectoryDestination] *)

(** What a path names: a regular file with its bytes and permission bits,
    or a directory. *)
Inductive node : Type :=
| File (data : string) (mode : nat)
| Dir.

(** The calls a [DirectoryDestination] makes that act on the outside. *)
Inductive effect : Type :=
| Makedirs (name : string)
| Print (meta : MetaData) (built_dist_path : string) (just_built : bool)
| Copy (src dst : string).

(** The machine: the entries of the file system under their absolute,
    normalised paths, and the calls made so far, oldest first. *)
Record Host : Type := mkHost {
  fs : gmap string node;
  journal : list effect
}.


(** The parts of [os], [os.path] and [shutil] the module calls, on POSIX
    paths.  The root always is a directory.  A path is looked up as it is
    written: the file system is keyed by [canonical] paths, which is what
    [abspath] returns, and has no links. *)
Module Os.

Definition stat (t : gmap string node) (p : string) : option node :=
  if String.eqb p "/" then Some Dir else t !! p.

(** [os.path.exists] *)
Definition path_exists (t : gmap string node) (p : string) : bool :=
  match stat t p with Some _ => true | None => false end.

(** [os.path.isdir] *)
Definition isdir (t : gmap string node) (p : string) : bool :=
  match stat t p with Some Dir => true | _ => false end.

(** [os.path.isfile] *)
Definition isfile (t : gmap string node) (p : string) : bool :=
  match stat t p with Some (File _ _) => true | _ => false end.

(** [os.path.basename(p)]: [p[p.rfind('/') + 1:]] *)
Definition basename (p : string) : string :=
  PyStr.drop (PyStr.after_last "/" p) p.

(** [os.path.join(a, b)] *)
Definition join (a b : string) : string :=
  if PyStr.startswith "/" b then b
  else if String.eqb a "" || PyStr.endswith "/" a then a ++ b
  else a ++ "/" ++ b.

(** The prefixes of [acc ++ s] that end just before a ['/'] of [s], the
    empty one left out, shortest first. *)
Fixpoint prefixes_at_sep (acc s : string) : list string :=
  match s with
  | EmptyString => []
  | String c s' =>
      let rest := prefixes_at_sep (acc ++ String c EmptyString) s' in
      if Ascii.eqb c "/" && negb (String.eqb acc "") then acc :: rest else rest
  end.

(** The directories above [p], outermost first, the root left out. *)
Definition ancestors (p : string) : list string := prefixes_at_sep "" p.

(** The directories [os.makedirs] makes sure of before the leaf, outermost
    first: a missing one is created, a regular file in the way fails. *)
Fixpoint mkdir_chain (ps : list string) : M (gmap string node) unit :=
  match ps with
  | [] => ret tt
  | p :: rest =>
      fun t =>
        match stat t p with
        | None => mkdir_chain rest (<[p := Dir]> t)
        | Some Dir => mkdir_chain rest t
        | Some (File _ _) => (Raise (OSError "Not a directory"), t)
        end
  end.

(** [os.makedirs(name)], without [exist_ok]: the leaf must not exist. *)
Definition makedirs (name : string) : M (gmap string node) unit :=
  bind (mkdir_chain (ancestors name)) (fun _ =>
    fun t =>
      match stat t name with
      | Some _ => (Raise (OSError "File exists"), t)
      | None => (Ok tt, <[name := Dir]> t)
      end).

(** Owner write permission among the permission bits, [S_IWUSR]. *)
Definition writable (mode : nat) : bool := Nat.testbit mode 7.

(** Whether [open(target, 'wb')] finds an entry it can write the bytes of
    [src] over, or none: a directory cannot be written, nor, by a process
    without privileges, a regular file without write permission. *)
Definition receives (t : gmap string node) (src target : string) : bool :=
  match stat t target with
  | None => true
  | Some (File _ old) => negb (String.eqb src target) && writable old
  | Some Dir => false
  end.

(** The paths the file system is keyed by: absolute, with no empty, ["."]
    or [".."] component.  Only for such a path does a lookup that finds
    nothing mean that the path names nothing. *)
Definition canonical (p : string) : bool :=
  String.eqb p "/" ||
  (PyStr.startswith "/" p &&
   forallb (fun c => negb (String.eqb c "" || String.eqb c "." || String.eqb c ".."))
           (PyStr.split "/" (PyStr.drop 1 p))).

(** [shutil.copy(src, dst)]: into [dst] under the name of [src] when [dst]
    is a directory, else onto [dst] itself, whose directory must exist; the
    bytes and the permission bits are copied.  The process has no
    privileges: it cannot write over a file without write permission. *)
Definition copy (src dst : string) : M (gmap string node) unit :=
  fun t =>
    let '(target, has_parent) :=
      if isdir t dst then (join dst (basename src), true)
      else (dst, isdir t (List.last (ancestors dst) "/")) in
    if String.eqb src target && path_exists t src then
      (Raise (OSError "are the same file"), t)
    else
      match stat t src with
      | None => (Raise (IOError "No such file or directory"), t)
      | Some Dir => (Raise (IOError "Is a directory"), t)
      | Some (File data mode) =>
          match stat t target with
          | Some Dir => (Raise (IOError "Is a directory"), t)
          | Some (File _ old) =>
              if writable old then (Ok tt, <[target := File data mode]> t)
              else (Raise (IOError "Permission denied"), t)
          | None =>
              if negb has_parent then (Raise (IOError "No such file or directory"), t)
              else (Ok tt, <[target := File data mode]> t)
          end
      end.

End Os.

(** How a file system [t'] extends [t] by new directories only. *)
Definition grown (t t' : gmap string node) : Prop :=
  forall q, Os.stat t' q = Os.stat t q
            \/ (Os.stat t q = None /\ Os.stat t' q = Some Dir).

(** ** The class [DirectoryDestination] *)

Module DirectoryDestination.

Record t : Type := mk { directory : string }.

(** An [os] or [shutil] call on the file system of the host, journalled. *)
Definition os_call (e : effect) (op : M (gmap string node) unit) : M Host unit :=
  fun h =>
    let '(r, t') := op (fs h) in
    (r, {| fs := t'; journal := journal h ++ [e] |}).

(** A test on the file system of the host. *)
Definition os_test (test : gmap string node -> bool) : M Host bool :=
  fun h => (Ok (test (fs h)), h).

Definition print (meta : MetaData) (built_dist_path : string) (just_built : bool) :
    M Host unit :=
  modify (fun h =>
    {| fs := fs h; journal := journal h ++ [Print meta built_dist_path just_built] |}).

Section Methods.

(** [os.path.expanduser] and [os.path.abspath] depend on the home and
    working directories of the process. *)
Variables expanduser abspath : string -> string.

Local Open Scope py_scope.

(** [DirectoryDestination.__init__] *)
Definition __init__ (directory : string) : M Host t :=
  let self_directory := abspath (expanduser directory) in
  present <- os_test (fun t => Os.path_exists t self_directory) ;;
  (if negb present
   then os_call (Makedirs self_directory) (Os.makedirs self_directory)
   else ret tt) ;;;
  is_directory <- os_test (fun t => Os.isdir t self_directory) ;;
  if negb is_directory
  then raise (IOError "The destination provided is not a directory.")
  else ret {| directory := self_directory |}.

End Methods.

Local Open Scope py_scope.

(** [DirectoryDestination.make_available] *)
Definition make_available (self : t) (meta : MetaData) (built_dist_path : string)
    (just_built : bool) : M Host unit :=
  if just_built then
    print meta built_dist_path just_built ;;;
    os_call (Copy built_dist_path (directory self))
            (Os.copy built_dist_path (directory self))
  else ret tt.

End DirectoryDestination.

(** A small host, to run the model on. *)
Module ToyHost.

Definition artefact : string := "/opt/conda-bld/linux-64/pkg-1.0-0.tar.bz2".

Definition disk : gmap string node :=
  <[artefact := File "BZh91AY" 420]>
  (<["/opt/conda-bld/linux-64" := Dir]>
  (<["/opt/conda-bld" := Dir]>
  (<["/opt" := Dir]>
  (<["/home/alice" := Dir]>
  (<["/home" := Dir]>
  (<["/home/alice/notes.txt" := File "to do" 420]> ∅)))))).

Definition host : Host := {| fs := disk; journal := [] |}.

(** The process runs as alice, in her home directory. *)
Definition expanduser (p : string) : string :=
  if String.eqb p "~" then "/home/alice"
  else if PyStr.startswith "~/" p then "/home/alice" ++ PyStr.drop 1 p
  else p.

(** Enough of [abspath] for paths that need no normalisation. *)
Definition abspath (p : string) : string :=
  if PyStr.startswith "/" p then p else Os.join "/home/alice" p.

End ToyHost.

(** ** Vocabulary for the further properties *)

Definition is_query (e : event) : bool :=
  match e with
  | EvDistributionExists _ _ _ | EvDistributionExistsOnChannel _ _ _ _ => true
  | _ => false
  end.
Definition is_warn (e : event) : bool :=
  match e with EvLogWarn _ => true | _ => false end.

(** A server on which publishing shows: what was uploaded to a channel, and
    what the owner had and was linked to a channel, is then found on that
    channel, whichever client asks. *)
Definition publishing_shows (R : Type) `{Remote R} : Prop :=
  (forall r c c' m o ch,
     distribution_exists_on_channel (upload r c m o [ch]) c' o m ch = true) /\
  (forall r c c' c'' m o ch,
     distribution_exists r c'' o m = true ->
     distribution_exists_on_channel (add_distribution_to_channel r c o m ch) c' o m ch
       = true).

(** Where [shutil.copy(src, dst)] writes. *)
Definition copy_target (t : gmap string node) (src dst : string) : string :=
  if Os.isdir t dst then Os.join dst (Os.basename src) else dst.

(** * Properties *)

Example split_two_fields : PyStr.split "/" "alice/test" = ["alice"; "test"].
Proof. reflexivity. Qed.

Example split_keeps_empty : PyStr.split "/" "a//b" = ["a"; ""; "b"].
Proof. reflexivity. Qed.

(** ** Facts about the string operations *)

Section StringFacts.

Local Open Scope string_scope.

Lemma append_cons (a : ascii) (s t : string) : String a s ++ t = String a (s ++ t).
Proof. reflexivity. Qed.

Lemma append_empty (t : string) : EmptyString ++ t = t.
Proof. reflexivity. Qed.

Lemma startswith_char (c : ascii) (s : string) :
  PyStr.startswith (String c EmptyString) s =
  match s with String a _ => Ascii.eqb c a | EmptyString => false end.
Proof. destruct s as [|a s]; simpl; [reflexivity|]. destruct (Ascii.eqb c a); reflexivity. Qed.

(** ['c' in s] holds exactly when [s.count('c')] is not zero. *)
Lemma contains_char_count (c : ascii) (s : string) :
  PyStr.contains (String c EmptyString) s = negb (Nat.eqb (PyStr.count c s) 0).
Proof.
  induction s as [|a s IH].
  - reflexivity.
  - cbn [PyStr.contains PyStr.count]. rewrite startswith_char, IH.
    rewrite (Ascii.eqb_sym c a). destruct (Ascii.eqb a c); simpl; [reflexivity|].
    reflexivity.
Qed.

Lemma split_not_nil (sep : ascii) (s : string) : PyStr.split sep s <> [].
Proof.
  induction s as [|a s IH]; simpl; [discriminate|].
  destruct (Ascii.eqb a sep); [discriminate|].
  destruct (PyStr.split sep s); discriminate.
Qed.

(** [s.split(sep)] has one more field than [s] has separators. *)
Lemma length_split (sep : ascii) (s : string) :
  length (PyStr.split sep s) = S (PyStr.count sep s).
Proof.
  induction s as [|a s IH]; simpl; [reflexivity|].
  destruct (Ascii.eqb a sep); simpl; [now rewrite IH|].
  destruct (PyStr.split sep s) as [|f fs] eqn:E; simpl in *; [discriminate|exact IH].
Qed.

(** Without a separator the only field is the string itself. *)
Lemma split_no_sep (sep : ascii) (s : string) :
  PyStr.count sep s = 0 -> PyStr.split sep s = [s].
Proof.
  induction s as [|a s IH]; simpl; [reflexivity|].
  destruct (Ascii.eqb a sep); simpl; [discriminate|].
  intros E. now rewrite (IH E).
Qed.

(** Splitting [a ++ sep ++ b] where [a] has no separator. *)
Lemma split_app_sep (sep : ascii) (a b : string) :
  PyStr.count sep a = 0 ->
  PyStr.split sep (a ++ String sep b) = a :: PyStr.split sep b.
Proof.
  induction a as [|x a IH]; [rewrite append_empty | rewrite append_cons]; simpl.
  - intros _. now rewrite Ascii.eqb_refl.
  - destruct (Ascii.eqb x sep); simpl; [discriminate|].
    intros E. now rewrite (IH E).
Qed.

Lemma startswith_spec (sub s : string) :
  PyStr.startswith sub s = true <-> exists post, s = sub ++ post.
Proof.
  revert s. induction sub as [|a sub IH]; intros s; simpl.
  - split; [intros _; now exists s | reflexivity].
  - destruct s as [|b s].
    + split; [discriminate | intros [post E]; discriminate].
    + destruct (Ascii.eqb_spec a b) as [->|N].
      * rewrite IH. split; intros [post E]; exists post;
          rewrite append_cons in *; congruence.
      * split; [discriminate | intros [post E]; rewrite append_cons in E; congruence].
Qed.

(** [sub in s] is the substring test: [sub] occurs somewhere in [s]. *)
Lemma contains_spec (sub s : string) :
  PyStr.contains sub s = true <-> exists pre post, s = pre ++ sub ++ post.
Proof.
  induction s as [|b s IH]; cbn [PyStr.contains].
  - rewrite orb_false_r, startswith_spec. split.
    + intros [post E]. now exists EmptyString, post.
    + intros [pre [post E]]. destruct pre; [now exists post | discriminate].
  - rewrite orb_true_iff, startswith_spec, IH. split.
    + intros [[post E] | [pre [post E]]].
      * now exists EmptyString, post.
      * exists (String b pre), post. rewrite append_cons. now rewrite E.
    + intros [pre [post E]]. destruct pre as [|x pre].
      * left. now exists post.
      * right. exists pre, post. rewrite append_cons in E. congruence.
Qed.

End StringFacts.

(** ** [from_spec] *)

(** A specification without ['/'] is the owner, on channel ["main"]. *)
Lemma from_spec_no_slash {Cli} (environ : gmap string string) (spec : string)
    (site : option string) :
  PyStr.contains "/" spec = false ->
  @from_spec Cli environ spec site =
  Ok (init_channel_dest (environ !! "BINSTAR_TOKEN") spec "main" site).
Proof. intros E. unfold from_spec. now rewrite E. Qed.

(** [from_spec] returns exactly on the specifications with no ['/'] or with
    two of them; with two, the middle field is dropped. *)
Lemma from_spec_returns_iff {Cli} (environ : gmap string string) (spec : string)
    (site : option string) :
  (exists d, @from_spec Cli environ spec site = Ok d) <->
  PyStr.count "/" spec = 0 \/ PyStr.count "/" spec = 2.
Proof.
  unfold from_spec. rewrite contains_char_count.
  pose proof (length_split "/" spec) as L.
  destruct (PyStr.count "/" spec) as [|[|[|n]]] eqn:E; simpl.
  - split; [now left | intros _; eexists; reflexivity].
  - destruct (PyStr.split "/" spec) as [|a [|b [|c l]]]; try discriminate.
    simpl. split; [intros [d Hd]; discriminate | intros [?|?]; discriminate].
  - destruct (PyStr.split "/" spec) as [|a [|b [|c [|x l]]]]; try discriminate.
    simpl. split; [now right | intros _; eexists; reflexivity].
  - destruct (PyStr.split "/" spec) as [|a [|b [|c [|x l]]]]; try discriminate.
    simpl. split; [intros [d Hd]; discriminate | intros [?|?]; discriminate].
Qed.

(** An ["owner/channel"] specification, with one ['/'], makes the
    three-target unpacking of [spec.split('/')] fail. *)
Lemma from_spec_owner_channel {Cli} (environ : gmap string string)
    (o ch : string) (site : option string) :
  PyStr.count "/" o = 0 -> PyStr.count "/" ch = 0 ->
  @from_spec Cli environ (o ++ "/" ++ ch)%string site =
  Raise (ValueError "not enough values to unpack").
Proof.
  intros Ho Hch. unfold from_spec.
  assert (C : PyStr.contains "/" (o ++ "/" ++ ch)%string = true).
  { apply contains_spec. now exists o, ch. }
  rewrite C. change (o ++ "/" ++ ch)%string with (o ++ String "/" ch)%string.
  rewrite (split_app_sep "/" o ch Ho), (split_no_sep "/" ch Hch). reflexivity.
Qed.

(** C1 (the code at the two specifications the claim names): with
    ["alice"] the owner is ["alice"] and the channel ["main"], as claimed;
    with ["alice/test"] no destination is returned: [spec.split('/')] has two
    fields, and unpacking them into [owner, _, channel] raises [ValueError]. *)
Theorem from_spec_alice (environ : gmap string string) (site : option string) :
  @from_spec Binstar environ "alice" site =
    Ok {| token := environ !! "BINSTAR_TOKEN"; owner := "alice"; channel := "main";
          _cli := None; site := site |} /\
  @from_spec Binstar environ "alice/test" site =
    Raise (ValueError "not enough values to unpack").
Proof. split; reflexivity. Qed.

(** ** [AnacondaClientChannelDest.make_available]: one call *)

Section OneCall.

Context {R : Type} `{Remote R}.

Lemma make_available_run (meta : MetaData) (path : string) (just_built : bool)
    (s : St R) :
  make_available meta path just_built s =
  ((if cross_owner_copy meta path just_built s
    then Raise (NotImplementedError "cross owner copying not yet implemented.")
    else Ok tt),
   (with_cli (fst s) (client_in_use s),
    {| remote := branch_remote meta just_built s;
       next_id := match _cli (fst s) with
                  | None => S (next_id (snd s))
                  | Some _ => next_id (snd s)
                  end;
       trace := trace (snd s) ++ preamble meta s
                  ++ branch_events meta path just_built s |})).
Proof.
  destruct s as [[tok own ch cli st] [r n t]].
  unfold make_available, cross_owner_copy, branch_remote, branch_events, preamble,
    already_on_channel, already_with_owner, client_in_use, with_cli.
  destruct cli as [c|]; cbn -[String.append mentions_http];
    repeat match goal with
           | |- context [distribution_exists_on_channel ?a ?b ?c ?d ?e] =>
               destruct (distribution_exists_on_channel a b c d e)
           | |- context [distribution_exists ?a ?b ?c ?d] =>
               destruct (distribution_exists a b c d)
           end;
    destruct just_built; cbn -[String.append mentions_http];
    try destruct (mentions_http path);
    unfold bind, log_info, log_warn, emit, command, modify, ret, raise;
    cbn -[String.append]; rewrite <- ?List.app_assoc; reflexivity.
Qed.

Lemma call_outcome_run (meta : MetaData) (path : string) (just_built : bool) (s : St R) :
  call_outcome meta path just_built s =
  if cross_owner_copy meta path just_built s
  then Raise (NotImplementedError "cross owner copying not yet implemented.")
  else Ok tt.
Proof. unfold call_outcome. now rewrite make_available_run. Qed.

Lemma new_events_app (w w' : World R) (d : list event) :
  trace w' = trace w ++ d -> new_events w w' = d.
Proof. intros E. unfold new_events. rewrite E. apply list.drop_app_length. Qed.

Lemma new_events_run (meta : MetaData) (path : string) (just_built : bool) (s : St R) :
  new_events (snd s) (snd (call_state meta path just_built s)) =
  preamble meta s ++ branch_events meta path just_built s.
Proof. apply new_events_app. unfold call_state. now rewrite make_available_run. Qed.

Lemma remote_run (meta : MetaData) (path : string) (just_built : bool) (s : St R) :
  remote (snd (call_state meta path just_built s)) = branch_remote meta just_built s.
Proof. unfold call_state. now rewrite make_available_run. Qed.

Lemma occurrences_app (kind : event -> bool) (t u : list event) :
  occurrences kind (t ++ u) = occurrences kind t + occurrences kind u.
Proof. unfold occurrences. now rewrite List.filter_app, List.length_app. Qed.

Lemma preamble_no_link (meta : MetaData) (s : St R) :
  occurrences is_link (preamble meta s) = 0.
Proof. unfold preamble. now destruct (_cli (fst s)). Qed.

Lemma preamble_no_upload (meta : MetaData) (s : St R) :
  occurrences is_upload (preamble meta s) = 0.
Proof. unfold preamble. now destruct (_cli (fst s)). Qed.

Lemma preamble_no_log (meta : MetaData) (s : St R) :
  occurrences is_log (preamble meta s) = 0.
Proof. unfold preamble. now destruct (_cli (fst s)). Qed.

End OneCall.

(** ** The decision table of [make_available] *)

Section DecisionTable.

Context {R : Type} `{Remote R}.

Lemma mentions_http_spec (path : string) :
  mentions_http path = true <->
  exists pre post, path = (pre ++ "http://" ++ post)%string
                   \/ path = (pre ++ "https://" ++ post)%string.
Proof.
  unfold mentions_http. rewrite orb_true_iff, !contains_spec. split.
  - intros [[pre [post E]] | [pre [post E]]]; exists pre, post; auto.
  - intros [pre [post [E | E]]]; [left | right]; now exists pre, post.
Qed.

(** C2: a call raises exactly when the distribution is neither on the
    channel nor with the owner, was not just built, and the path tests as
    an http(s) URL; what is raised is then the [NotImplementedError]. In
    every other case the call returns. *)
Theorem make_available_raises_iff (meta : MetaData) (path : string)
    (just_built : bool) (s : St R) :
  (forall e,
     call_outcome meta path just_built s = Raise e <->
     already_on_channel meta s = false /\ already_with_owner meta s = false /\
     just_built = false /\ mentions_http path = true /\
     e = NotImplementedError "cross owner copying not yet implemented.") /\
  (call_outcome meta path just_built s = Ok tt <->
   already_on_channel meta s = true \/ already_with_owner meta s = true \/
   just_built = true \/ mentions_http path = false).
Proof.
  rewrite call_outcome_run. unfold cross_owner_copy.
  destruct (already_on_channel meta s), (already_with_owner meta s), just_built,
    (mentions_http path); cbn; split;
    try (intros e; split; [discriminate | intros (?&?&?&?&?); discriminate]);
    try (split; [discriminate | intros [?|[?|[?|?]]]; discriminate]);
    try (split; auto; fail).
  intros e. split; [intros [= <-]; auto | intros (_&_&_&_&->); reflexivity].
Qed.

(** C3: when the distribution is already on the channel, the call returns,
    leaves the server as it was, and adds to the preamble one log line and
    nothing else: no upload and no link, whatever [just_built] is. *)
Theorem on_channel_is_noop (meta : MetaData) (path : string)
    (just_built : bool) (s : St R) :
  already_on_channel meta s = true ->
  let s' := call_state meta path just_built s in
  let d := new_events (snd s) (snd s') in
  call_outcome meta path just_built s = Ok tt /\
  occurrences is_upload d = 0 /\ occurrences is_link d = 0 /\
  remote (snd s') = remote (snd s) /\
  exists line, is_log line = true /\ d = preamble meta s ++ [line].
Proof.
  intros Hc. cbv zeta. rewrite call_outcome_run, new_events_run, remote_run.
  rewrite !occurrences_app, preamble_no_upload, preamble_no_link.
  unfold cross_owner_copy, branch_events, branch_remote. rewrite Hc.
  destruct just_built; cbn; repeat (split; [reflexivity|]);
    eexists; (split; [|reflexivity]); reflexivity.
Qed.

(** C4: when the distribution is with the owner but not on the channel,
    the call links it: one [add_distribution_to_channel], made with the
    instance's owner and channel, and no upload, whatever [just_built] is. *)
Theorem with_owner_links_once (meta : MetaData) (path : string)
    (just_built : bool) (s : St R) :
  already_on_channel meta s = false ->
  already_with_owner meta s = true ->
  let s' := call_state meta path just_built s in
  let d := new_events (snd s) (snd s') in
  let c := Some (client_in_use s) in
  call_outcome meta path just_built s = Ok tt /\
  occurrences is_link d = 1 /\ occurrences is_upload d = 0 /\
  List.filter is_link d =
    [EvAddDistributionToChannel c (owner (fst s)) meta (channel (fst s))] /\
  remote (snd s') =
    add_distribution_to_channel (remote (snd s)) c (owner (fst s)) meta
      (channel (fst s)).
Proof.
  intros Hc Ho. cbv zeta. rewrite call_outcome_run, new_events_run, remote_run.
  rewrite !occurrences_app, preamble_no_upload, preamble_no_link, List.filter_app.
  pose proof (preamble_no_link meta s) as P. unfold occurrences in P.
  apply List.length_zero_iff_nil in P. rewrite P.
  unfold cross_owner_copy, branch_events, branch_remote. rewrite Hc, Ho.
  destruct just_built; cbn; repeat split; reflexivity.
Qed.

(** C5: a just-built distribution the owner does not have is uploaded:
    one [upload], with the instance's owner and the list holding its
    channel alone, and no link. *)
Theorem just_built_uploads_once (meta : MetaData) (path : string) (s : St R) :
  already_on_channel meta s = false ->
  already_with_owner meta s = false ->
  let s' := call_state meta path true s in
  let d := new_events (snd s) (snd s') in
  let c := Some (client_in_use s) in
  call_outcome meta path true s = Ok tt /\
  occurrences is_upload d = 1 /\ occurrences is_link d = 0 /\
  List.filter is_upload d = [EvUpload c meta (owner (fst s)) [channel (fst s)]] /\
  remote (snd s') = upload (remote (snd s)) c meta (owner (fst s)) [channel (fst s)].
Proof.
  intros Hc Ho. cbv zeta. rewrite call_outcome_run, new_events_run, remote_run.
  rewrite !occurrences_app, preamble_no_upload, preamble_no_link, List.filter_app.
  pose proof (preamble_no_upload meta s) as P. unfold occurrences in P.
  apply List.length_zero_iff_nil in P. rewrite P.
  unfold cross_owner_copy, branch_events, branch_remote. rewrite Hc, Ho.
  cbn; repeat split; reflexivity.
Qed.

(** C8: a distribution found nowhere, not just built, whose path does not
    test as an http(s) URL: the call returns after its two queries, having
    uploaded, linked and logged nothing, the server unchanged. *)
Theorem falls_through_silently (meta : MetaData) (path : string) (s : St R) :
  already_on_channel meta s = false ->
  already_with_owner meta s = false ->
  mentions_http path = false ->
  let s' := call_state meta path false s in
  let d := new_events (snd s) (snd s') in
  call_outcome meta path false s = Ok tt /\
  occurrences is_upload d = 0 /\ occurrences is_link d = 0 /\
  occurrences is_log d = 0 /\
  d = preamble meta s /\
  remote (snd s') = remote (snd s).
Proof.
  intros Hc Ho Hp. cbv zeta. rewrite call_outcome_run, new_events_run, remote_run.
  rewrite !occurrences_app, preamble_no_upload, preamble_no_link, preamble_no_log.
  unfold cross_owner_copy, branch_events, branch_remote. rewrite Hc, Ho, Hp.
  cbn. rewrite List.app_nil_r. repeat split; reflexivity.
Qed.

(** C10: in the last branch the test on the path is a substring test: the
    call raises exactly when ["http://"] or ["https://"] occurs somewhere
    in the path, at the front or not, and returns exactly when neither
    does. *)
Theorem url_test_is_substring (meta : MetaData) (path : string) (s : St R) :
  already_on_channel meta s = false ->
  already_with_owner meta s = false ->
  (call_outcome meta path false s =
     Raise (NotImplementedError "cross owner copying not yet implemented.") <->
   exists pre post, path = (pre ++ "http://" ++ post)%string
                    \/ path = (pre ++ "https://" ++ post)%string) /\
  (call_outcome meta path false s = Ok tt <->
   ~ exists pre post, path = (pre ++ "http://" ++ post)%string
                      \/ path = (pre ++ "https://" ++ post)%string).
Proof.
  intros Hc Ho. rewrite <- mentions_http_spec, call_outcome_run.
  unfold cross_owner_copy. rewrite Hc, Ho.
  destruct (mentions_http path); cbn; split; split;
    try discriminate; try reflexivity; congruence.
Qed.

End DecisionTable.

(** ** The cached client, over a sequence of calls *)

Section CachedClient.

Context {R : Type} `{Remote R}.

Lemma call_events_use_client (meta : MetaData) (path : string) (just_built : bool)
    (s : St R) :
  Forall (uses_client (client_in_use s))
    (preamble meta s ++ branch_events meta path just_built s).
Proof.
  unfold preamble, branch_events.
  destruct (_cli (fst s)), (already_on_channel meta s), (already_with_owner meta s),
    just_built; cbn -[String.append]; repeat constructor.
Qed.

Lemma branch_no_get_binstar (meta : MetaData) (path : string) (just_built : bool)
    (s : St R) :
  List.filter is_get_binstar (branch_events meta path just_built s) = [].
Proof.
  unfold branch_events.
  destruct (already_on_channel meta s), (already_with_owner meta s), just_built;
    reflexivity.
Qed.

(** The constructions of a client in one call: one when none is cached. *)
Lemma call_get_binstar (meta : MetaData) (path : string) (just_built : bool)
    (s : St R) :
  List.filter is_get_binstar (preamble meta s ++ branch_events meta path just_built s) =
  match _cli (fst s) with
  | None => [EvGetBinstar (token (fst s)) (site (fst s)) (client_in_use s)]
  | Some _ => []
  end.
Proof.
  rewrite List.filter_app, branch_no_get_binstar, List.app_nil_r.
  unfold preamble. now destruct (_cli (fst s)).
Qed.

Lemma call_state_run (meta : MetaData) (path : string) (just_built : bool) (s : St R) :
  fst (call_state meta path just_built s) = with_cli (fst s) (client_in_use s) /\
  trace (snd (call_state meta path just_built s)) =
    trace (snd s) ++ preamble meta s ++ branch_events meta path just_built s.
Proof. unfold call_state. now rewrite make_available_run. Qed.

(** Once a client is cached, no sequence of calls constructs another, and
    every call is made with the cached one. *)
Lemma run_calls_cached (calls : list (MetaData * string * bool)) :
  forall (s : St R) (c : Binstar),
    _cli (fst s) = Some c ->
    exists d,
      trace (snd (run_calls calls s)) = trace (snd s) ++ d /\
      List.filter is_get_binstar d = [] /\
      Forall (uses_client c) d /\
      _cli (fst (run_calls calls s)) = Some c.
Proof.
  induction calls as [|[[meta path] jb] rest IH]; intros s c Hc; cbn [run_calls].
  - exists []. rewrite List.app_nil_r. repeat split; auto.
  - destruct (call_state_run meta path jb s) as [Hs Ht].
    assert (Hu : client_in_use s = c) by (unfold client_in_use; now rewrite Hc).
    destruct (IH (call_state meta path jb s) c) as (d & Hd & Hg & Hf & Hk).
    { rewrite Hs, Hu. reflexivity. }
    exists ((preamble meta s ++ branch_events meta path jb s) ++ d).
    rewrite Hd, Ht, List.filter_app, call_get_binstar, Hc, Hg.
    rewrite !List.app_assoc. repeat split; auto.
    apply Forall_app. split; [|exact Hf].
    rewrite <- Hu. apply call_events_use_client.
Qed.

(** C9: an instance is constructed without a client; whatever calls are
    then made on it, the client factory runs once, in the first call, and
    every query, link and upload of every call is made with the client
    constructed then, which is also the one left cached. *)
Theorem client_constructed_once (tok : option string) (own ch : string)
    (st : option string) (calls : list (MetaData * string * bool)) (w : World R) :
  let self := init_channel_dest tok own ch st in
  let c := {| cli_id := next_id w; cli_token := tok; cli_site := st |} in
  let s' := run_calls calls (self, w) in
  let d := new_events w (snd s') in
  _cli self = None /\
  occurrences is_get_binstar d = Nat.min 1 (length calls) /\
  List.filter is_get_binstar d =
    match calls with [] => [] | _ :: _ => [EvGetBinstar tok st c] end /\
  Forall (uses_client c) d /\
  _cli (fst s') = match calls with [] => None | _ :: _ => Some c end.
Proof.
  cbv zeta. destruct calls as [|[[meta path] jb] rest].
  - cbn [run_calls snd fst length]. unfold new_events.
    rewrite list.drop_all. repeat split; constructor.
  - cbn [run_calls length].
    set (s := (init_channel_dest tok own ch st, w)).
    set (c := {| cli_id := next_id w; cli_token := tok; cli_site := st |}).
    destruct (call_state_run meta path jb s) as [Hs Ht].
    destruct (run_calls_cached rest (call_state meta path jb s) c)
      as (d & Hd & Hg & Hf & Hk).
    { rewrite Hs. reflexivity. }
    rewrite Ht, <- List.app_assoc in Hd.
    rewrite (new_events_app w _ _ Hd). unfold occurrences.
    rewrite List.filter_app, call_get_binstar, Hg, Hk.
    repeat split.
    apply Forall_app. split; [|exact Hf].
    apply (call_events_use_client meta path jb s).
Qed.

End CachedClient.

(** ** The file system operations *)

Section FileSystemFacts.

Local Open Scope string_scope.

Lemma length_append_char (acc : string) (c : ascii) :
  String.length (acc ++ String c EmptyString) = S (String.length acc).
Proof.
  induction acc as [|a acc IH]; [reflexivity|].
  rewrite append_cons. cbn [String.length]. now rewrite IH.
Qed.

(** Every prefix listed is shorter than the whole path. *)
Lemma prefixes_at_sep_shorter (s : string) :
  forall acc,
    Forall (fun a => String.length a < String.length acc + String.length s)
           (Os.prefixes_at_sep acc s).
Proof.
  induction s as [|c s IH]; intros acc; cbn [Os.prefixes_at_sep].
  - constructor.
  - specialize (IH (acc ++ String c EmptyString)).
    rewrite length_append_char in IH. cbn [String.length].
    assert (T : Forall (fun a => String.length a < String.length acc + S (String.length s))
                  (Os.prefixes_at_sep (acc ++ String c EmptyString) s)).
    { eapply Forall_impl; [exact IH|]. cbn. intros a. lia. }
    destruct (Ascii.eqb c "/" && negb (String.eqb acc "")); [|exact T].
    constructor; [lia | exact T].
Qed.

(** A path is not among the directories above it. *)
Lemma ancestors_not_self (p : string) : ~ List.In p (Os.ancestors p).
Proof.
  intros I. pose proof (prefixes_at_sep_shorter p "") as F.
  rewrite List.Forall_forall in F. specialize (F p I). cbn in F. lia.
Qed.

Lemma stat_root (t : gmap string node) : Os.stat t "/" = Some Dir.
Proof. reflexivity. Qed.

Lemma stat_insert_ne (t : gmap string node) (p q : string) (x : node) :
  p <> q -> Os.stat (<[p := x]> t) q = Os.stat t q.
Proof.
  intros N. unfold Os.stat. destruct (String.eqb q "/"); [reflexivity|].
  now apply lookup_insert_ne.
Qed.

Lemma stat_insert_eq (t : gmap string node) (p : string) (x : node) :
  p <> "/" -> Os.stat (<[p := x]> t) p = Some x.
Proof.
  intros N. unfold Os.stat. apply String.eqb_neq in N. rewrite N.
  apply lookup_insert_eq.
Qed.

Lemma stat_none_not_root (t : gmap string node) (p : string) :
  Os.stat t p = None -> p <> "/".
Proof. intros E ->. discriminate. Qed.

Lemma grown_refl (t : gmap string node) : grown t t.
Proof. intros q. now left. Qed.

Lemma grown_insert (t : gmap string node) (p : string) :
  Os.stat t p = None -> grown t (<[p := Dir]> t).
Proof.
  intros E q. destruct (decide (p = q)) as [<-|N].
  - right. split; [exact E|]. apply stat_insert_eq. eapply stat_none_not_root, E.
  - left. now apply stat_insert_ne.
Qed.

Lemma grown_trans (t1 t2 t3 : gmap string node) :
  grown t1 t2 -> grown t2 t3 -> grown t1 t3.
Proof.
  intros G1 G2 q. destruct (G1 q) as [E1|[E1 E1']], (G2 q) as [E2|[E2 E2']].
  - left. congruence.
  - right. split; congruence.
  - right. split; congruence.
  - congruence.
Qed.

Lemma grown_isfile (t t' : gmap string node) (q : string) :
  grown t t' -> Os.isfile t q = false -> Os.isfile t' q = false.
Proof.
  intros G. unfold Os.isfile. destruct (G q) as [->|[_ ->]]; auto.
Qed.

(** A regular file above the path makes [os.makedirs] raise. *)
Lemma mkdir_chain_blocked (ps : list string) :
  forall t : gmap string node,
    Exists (fun a => Os.isfile t a = true) ps ->
    exists t', Os.mkdir_chain ps t = (Raise (OSError "Not a directory"), t').
Proof.
  induction ps as [|p ps IH]; intros t X; [inversion X|].
  cbn [Os.mkdir_chain]. unfold Os.isfile in X.
  destruct (Os.stat t p) as [[data mode|]|] eqn:E.
  - eexists; reflexivity.
  - apply Exists_cons in X as [X|X]; [rewrite E in X; discriminate|].
    now apply IH.
  - apply Exists_cons in X as [X|X]; [rewrite E in X; discriminate|].
    apply IH. eapply Exists_impl; [exact X|]. cbn. intros a Ha.
    destruct (decide (p = a)) as [<-|N]; [rewrite E in Ha; discriminate|].
    unfold Os.isfile. now rewrite stat_insert_ne.
Qed.

Lemma grown_isdir (t t' : gmap string node) (q : string) :
  grown t t' -> Os.isdir t q = true -> Os.isdir t' q = true.
Proof.
  intros G. unfold Os.isdir. destruct (G q) as [->|[E ->]]; auto.
Qed.

(** With no regular file in the way, every directory of the chain is a
    directory afterwards. *)
Lemma mkdir_chain_makes (ps : list string) :
  forall t : gmap string node,
    Forall (fun a => Os.isfile t a = false) ps ->
    exists t',
      Os.mkdir_chain ps t = (Ok tt, t') /\ grown t t' /\
      (forall q, ~ List.In q ps -> Os.stat t' q = Os.stat t q) /\
      Forall (fun a => Os.isdir t' a = true) ps.
Proof.
  induction ps as [|p ps IH]; intros t F; cbn [Os.mkdir_chain].
  - exists t. repeat split; auto using grown_refl.
  - apply Forall_cons in F as [Fp F].
    destruct (Os.stat t p) as [[data mode|]|] eqn:E.
    + unfold Os.isfile in Fp. rewrite E in Fp. discriminate.
    + destruct (IH t F) as (t' & Hr & Hg & Ho & Hd). exists t'. repeat split; auto.
      * intros q N. apply Ho. intros I. apply N. now right.
      * constructor; [|exact Hd]. apply (grown_isdir t t' p Hg).
        unfold Os.isdir. now rewrite E.
    + destruct (IH (<[p := Dir]> t)) as (t' & Hr & Hg & Ho & Hd).
      { eapply Forall_impl; [exact F|]. cbn. intros a.
        apply grown_isfile, grown_insert, E. }
      exists t'. repeat split; auto.
      * eapply grown_trans; [apply grown_insert, E | exact Hg].
      * intros q N. rewrite Ho by (intros I; apply N; now right).
        apply stat_insert_ne. intros ->. apply N. now left.
      * constructor; [|exact Hd]. apply (grown_isdir _ t' p Hg).
        unfold Os.isdir. rewrite stat_insert_eq; [reflexivity|].
        eapply stat_none_not_root, E.
Qed.

(** [os.makedirs] on a path that does not exist and has no regular file
    above it: the path and every directory above it are directories
    afterwards, and every other path is as it was. *)
Lemma makedirs_makes (name : string) (t : gmap string node) :
  Os.path_exists t name = false ->
  Forall (fun a => Os.isfile t a = false) (Os.ancestors name) ->
  exists t',
    Os.makedirs name t = (Ok tt, t') /\ Os.isdir t' name = true /\
    Forall (fun a => Os.isdir t' a = true) (Os.ancestors name) /\
    (forall q, q <> name -> ~ List.In q (Os.ancestors name) ->
               Os.stat t' q = Os.stat t q) /\
    grown t t'.
Proof.
  intros E F. unfold Os.path_exists in E.
  destruct (Os.stat t name) eqn:S0; [discriminate|].
  destruct (mkdir_chain_makes _ t F) as (t1 & Hr & Hg & Ho & Hd).
  unfold Os.makedirs, bind. rewrite Hr.
  rewrite (Ho name (ancestors_not_self name)), S0.
  assert (G1 : grown t1 (<[name := Dir]> t1)).
  { apply grown_insert. now rewrite (Ho name (ancestors_not_self name)). }
  exists (<[name := Dir]> t1). repeat split.
  - unfold Os.isdir. rewrite stat_insert_eq; [reflexivity|].
    eapply stat_none_not_root, S0.
  - eapply Forall_impl; [exact Hd|]. cbn. intros a. apply grown_isdir, G1.
  - intros q Q I. rewrite stat_insert_ne by congruence. now apply Ho.
  - eapply grown_trans; [exact Hg | exact G1].
Qed.

(** The copy of a just-built artefact into a directory that can receive
    it, in closed form. *)
Lemma copy_into_directory (self : DirectoryDestination.t) (meta : MetaData)
    (src : string) (h : Host) (data : string) (mode : nat) :
  let dir := DirectoryDestination.directory self in
  let dst := Os.join dir (Os.basename src) in
  Os.isdir (fs h) dir = true ->
  Os.stat (fs h) src = Some (File data mode) ->
  Os.receives (fs h) src dst = true ->
  DirectoryDestination.make_available self meta src true h =
    (Ok tt, {| fs := <[dst := File data mode]> (fs h);
               journal := (journal h ++ [Print meta src true; Copy src dir])%list |}).
Proof.
  intros dir dst D S0 X.
  unfold DirectoryDestination.make_available, DirectoryDestination.print,
    DirectoryDestination.os_call, bind, modify, Os.copy. cbn [fs journal].
  fold dir. rewrite D. fold dst. unfold Os.receives in X.
  destruct (String.eqb_spec src dst) as [Q|N].
  - rewrite <- Q, S0 in X. discriminate.
  - cbn [andb]. rewrite S0.
    destruct (Os.stat (fs h) dst) as [[data' old|]|]; [| discriminate |].
    + cbn [negb andb] in X. rewrite X. now rewrite <- List.app_assoc.
    + cbn [negb]. now rewrite <- List.app_assoc.
Qed.

(** What can receive a copy is not the root. *)
Lemma receives_not_root (t : gmap string node) (src target : string) :
  Os.receives t src target = true -> target <> "/".
Proof. intros X ->. discriminate. Qed.

End FileSystemFacts.

(** ** [DirectoryDestination] *)

(** C7, as amended: constructing a destination on a path that does not
    exist, with no regular file standing where a directory above it should
    be, creates the directory at the expanded, absolute path, and the
    directories above it that were missing, leaves every other path as it
    was, and returns the destination on it; on a path that exists and is not
    a directory it raises the [IOError] and touches nothing; on a directory
    it returns and touches nothing. *)
Theorem directory_init_creates_or_raises (expanduser abspath : string -> string)
    (directory : string) (h : Host) :
  let d := abspath (expanduser directory) in
  let init := DirectoryDestination.__init__ expanduser abspath directory h in
  (Os.path_exists (fs h) d = false ->
   Forall (fun a => Os.isfile (fs h) a = false) (Os.ancestors d) ->
   exists t',
     init = (Ok (DirectoryDestination.mk d),
             {| fs := t'; journal := journal h ++ [Makedirs d] |})
     /\ Os.isdir t' d = true
     /\ Forall (fun a => Os.isdir t' a = true) (Os.ancestors d)
     /\ (forall q, q <> d -> ~ List.In q (Os.ancestors d) ->
                   Os.stat t' q = Os.stat (fs h) q)
     /\ grown (fs h) t') /\
  (Os.path_exists (fs h) d = true -> Os.isdir (fs h) d = false ->
   init = (Raise (IOError "The destination provided is not a directory."), h)) /\
  (Os.isdir (fs h) d = true -> init = (Ok (DirectoryDestination.mk d), h)).
Proof.
  cbv zeta. set (d := abspath (expanduser directory)).
  unfold DirectoryDestination.__init__, DirectoryDestination.os_test,
    DirectoryDestination.os_call, bind, ret, raise. fold d.
  cbn [fst snd]. repeat split.
  - intros E F. rewrite E. cbn [negb].
    destruct (makedirs_makes d (fs h) E F) as (t' & Hr & Hd & Ha & Ho & Hg).
    cbv beta iota. rewrite Hr. cbn [fs]. rewrite Hd. cbn [negb]. exists t'. auto.
  - intros E N. rewrite E. cbn [negb]. cbv beta iota. rewrite N. reflexivity.
  - intros D. assert (E : Os.path_exists (fs h) d = true).
    { unfold Os.isdir in D. unfold Os.path_exists.
      destruct (Os.stat (fs h) d); [reflexivity | discriminate]. }
    rewrite E. cbn [negb]. cbv beta iota. rewrite D. reflexivity.
Qed.

(** C7, as stated, fails: the path does not exist, a regular file stands
    above it, and construction raises the [OSError] of [os.makedirs]; no
    directory is created. *)
Lemma directory_init_not_created :
  let d := ToyHost.abspath (ToyHost.expanduser "notes.txt/sub") in
  let init := DirectoryDestination.__init__ ToyHost.expanduser ToyHost.abspath
                "notes.txt/sub" ToyHost.host in
  d = "/home/alice/notes.txt/sub" /\
  Os.path_exists (fs ToyHost.host) d = false /\
  fst init = Raise (OSError "Not a directory") /\
  Os.path_exists (fs (snd init)) d = false.
Proof. cbv zeta. repeat split; vm_compute; reflexivity. Qed.



(** ** The theorems at work on the small server and the small host *)

Section Instances.

Import ToyServer.

Lemma make_available_raises_iff_witness :
  call_outcome pkg url_path false (alice, world elsewhere) =
    Raise (NotImplementedError "cross owner copying not yet implemented.") /\
  call_outcome pkg local_path false (alice, world elsewhere) = Ok tt.
Proof.
  split.
  - apply (proj1 (make_available_raises_iff pkg url_path false (alice, world elsewhere))).
    repeat split; reflexivity.
  - apply (proj2 (make_available_raises_iff pkg local_path false (alice, world elsewhere))).
    right; right; right. reflexivity.
Defined.

Lemma on_channel_is_noop_witness :
  already_on_channel pkg (alice, world on_main) = true /\
  occurrences is_upload
    (new_events (world on_main)
       (snd (call_state pkg local_path true (alice, world on_main)))) = 0 /\
  occurrences is_link
    (new_events (world on_main)
       (snd (call_state pkg local_path true (alice, world on_main)))) = 0.
Proof.
  split; [reflexivity|].
  pose proof (on_channel_is_noop pkg local_path true (alice, world on_main) eq_refl)
    as (_ & U & L & _).
  split; [exact U | exact L].
Defined.

Lemma with_owner_links_once_witness :
  already_on_channel pkg (alice, world on_dev) = false /\
  already_with_owner pkg (alice, world on_dev) = true /\
  occurrences is_link
    (new_events (world on_dev)
       (snd (call_state pkg local_path false (alice, world on_dev)))) = 1.
Proof.
  split; [reflexivity|]. split; [reflexivity|].
  exact (proj1 (proj2
    (with_owner_links_once pkg local_path false (alice, world on_dev) eq_refl eq_refl))).
Defined.

Lemma just_built_uploads_once_witness :
  already_on_channel pkg (alice, world elsewhere) = false /\
  already_with_owner pkg (alice, world elsewhere) = false /\
  occurrences is_upload
    (new_events (world elsewhere)
       (snd (call_state pkg local_path true (alice, world elsewhere)))) = 1.
Proof.
  split; [reflexivity|]. split; [reflexivity|].
  exact (proj1 (proj2
    (just_built_uploads_once pkg local_path (alice, world elsewhere) eq_refl eq_refl))).
Defined.

Lemma falls_through_silently_witness :
  already_on_channel pkg (alice, world elsewhere) = false /\
  already_with_owner pkg (alice, world elsewhere) = false /\
  mentions_http local_path = false /\
  call_outcome pkg local_path false (alice, world elsewhere) = Ok tt.
Proof.
  split; [reflexivity|]. split; [reflexivity|]. split; [reflexivity|].
  exact (proj1
    (falls_through_silently pkg local_path (alice, world elsewhere)
       eq_refl eq_refl eq_refl)).
Defined.

Lemma url_test_is_substring_witness :
  already_on_channel pkg (alice, world elsewhere) = false /\
  already_with_owner pkg (alice, world elsewhere) = false /\
  call_outcome pkg "/mnt/mirror/https://host/pkg-1.0-0.tar.bz2" false
    (alice, world elsewhere) =
    Raise (NotImplementedError "cross owner copying not yet implemented.") /\
  ~ (exists pre post,
       "HTTP://HOST/pkg-1.0-0.tar.bz2" = (pre ++ "http://" ++ post)%string
       \/ "HTTP://HOST/pkg-1.0-0.tar.bz2" = (pre ++ "https://" ++ post)%string).
Proof.
  split; [reflexivity|]. split; [reflexivity|]. split.
  - destruct (url_test_is_substring pkg "/mnt/mirror/https://host/pkg-1.0-0.tar.bz2"
                (alice, world elsewhere)) as [[_ Raises] _]; [reflexivity | reflexivity |].
    apply Raises.
    exists "/mnt/mirror/"%string, "host/pkg-1.0-0.tar.bz2"%string. now right.
  - destruct (url_test_is_substring pkg "HTTP://HOST/pkg-1.0-0.tar.bz2"
                (alice, world elsewhere)) as [_ [Returns _]]; [reflexivity | reflexivity |].
    apply Returns. reflexivity.
Defined.

Lemma client_constructed_once_witness :
  occurrences is_get_binstar
    (new_events (world elsewhere)
       (snd (run_calls [(pkg, url_path, false); (pkg, local_path, true);
                        (pkg, local_path, false)]
               (init_channel_dest (Some "secret"%string) "alice"%string "main"%string None,
                world elsewhere)))) = 1.
Proof.
  exact (proj1 (proj2
    (client_constructed_once (Some "secret"%string) "alice"%string "main"%string None
       [(pkg, url_path, false); (pkg, local_path, true); (pkg, local_path, false)]
       (world elsewhere)))).
Defined.

End Instances.

Lemma directory_init_creates_or_raises_witness :
  (exists t',
     DirectoryDestination.__init__ ToyHost.expanduser ToyHost.abspath
       "~/out/pkgs" ToyHost.host =
     (Ok (DirectoryDestination.mk "/home/alice/out/pkgs"),
      {| fs := t'; journal := [Makedirs "/home/alice/out/pkgs"] |})
     /\ Os.isdir t' "/home/alice/out/pkgs" = true
     /\ Os.isdir t' "/home/alice/out" = true
     /\ Os.stat t' ToyHost.artefact = Some (File "BZh91AY" 420)) /\
  DirectoryDestination.__init__ ToyHost.expanduser ToyHost.abspath
    "notes.txt" ToyHost.host =
  (Raise (IOError "The destination provided is not a directory."), ToyHost.host).
Proof.
  split.
  - destruct (proj1 (directory_init_creates_or_raises ToyHost.expanduser ToyHost.abspath
                       "~/out/pkgs" ToyHost.host))
      as (t' & Hr & Hd & Ha & Ho & _); [reflexivity | repeat constructor |].
    exists t'. split; [exact Hr|]. split; [exact Hd|]. split.
    + rewrite List.Forall_forall in Ha. apply Ha. right. right. now left.
    + rewrite Ho; [reflexivity | discriminate |].
      intros [I|[I|[I|[]]]]; discriminate.
  - apply (proj1 (proj2 (directory_init_creates_or_raises ToyHost.expanduser
                           ToyHost.abspath "notes.txt" ToyHost.host))).
    + reflexivity.
    + reflexivity.
Defined.


(** * Further properties *)

(** ** [from_spec] on every specification *)

(** No field of [s.split(sep)] holds the separator. *)
Lemma split_fields_free (sep : ascii) (s : string) :
  Forall (fun f => PyStr.count sep f = 0) (PyStr.split sep s).
Proof.
  induction s as [|a s IH]; cbn [PyStr.split].
  - repeat constructor.
  - destruct (Ascii.eqb a sep) eqn:E.
    + constructor; [reflexivity | exact IH].
    + destruct (PyStr.split sep s) as [|f fs].
      * constructor; [|constructor]. cbn. now rewrite E.
      * apply Forall_cons in IH as [Hf Hfs]. constructor; [|exact Hfs].
        cbn. now rewrite E.
Qed.

(** The fields [from_spec] gives the destination it returns. *)
Lemma from_spec_fields {Cli} (environ : gmap string string) (spec : string)
    (st : option string) (d : AnacondaClientChannelDest Cli) :
  from_spec environ spec st = Ok d ->
  token d = environ !! "BINSTAR_TOKEN" /\ site d = st /\ _cli d = None.
Proof.
  unfold from_spec. destruct (PyStr.contains "/" spec).
  - destruct (unpack3 (PyStr.split "/" spec)) as [[[o x] ch]|e]; [|discriminate].
    intros [= <-]. repeat split.
  - intros [= <-]. repeat split.
Qed.

(** X1: what [from_spec] does is decided by the number of ['/'] in the
    specification: none or two, a destination is returned; one, the
    unpacking has too few values; three or more, too many. *)
Theorem from_spec_by_slashes (environ : gmap string string) (spec : string)
    (site : option string) :
  match PyStr.count "/" spec with
  | 0 | 2 => exists d, @from_spec Binstar environ spec site = Ok d
  | 1 => @from_spec Binstar environ spec site =
           Raise (ValueError "not enough values to unpack")
  | _ => @from_spec Binstar environ spec site =
           Raise (ValueError "too many values to unpack")
  end.
Proof.
  unfold from_spec. rewrite contains_char_count.
  pose proof (length_split "/" spec) as L.
  destruct (PyStr.count "/" spec) as [|[|[|n]]] eqn:E; cbn [Nat.eqb negb].
  - eexists; reflexivity.
  - destruct (PyStr.split "/" spec) as [|a [|b [|c l]]]; try discriminate. reflexivity.
  - destruct (PyStr.split "/" spec) as [|a [|b [|c [|x l]]]]; try discriminate.
    eexists; reflexivity.
  - destruct (PyStr.split "/" spec) as [|a [|b [|c [|x l]]]]; try discriminate.
    reflexivity.
Qed.

Lemma from_spec_by_slashes_witness :
  @from_spec Binstar ∅ "a/b/c/d" None = Raise (ValueError "too many values to unpack").
Proof. exact (from_spec_by_slashes ∅ "a/b/c/d" None). Defined.

(** X2: a specification of three fields gives the first as owner and the
    third as channel; the middle one is dropped. *)
Theorem from_spec_three_fields (environ : gmap string string) (o mid ch : string)
    (site : option string) :
  PyStr.count "/" o = 0 -> PyStr.count "/" mid = 0 -> PyStr.count "/" ch = 0 ->
  @from_spec Binstar environ (o ++ "/" ++ mid ++ "/" ++ ch)%string site =
  Ok {| token := environ !! "BINSTAR_TOKEN"; owner := o; channel := ch;
        _cli := None; site := site |}.
Proof.
  intros Ho Hm Hc. unfold from_spec.
  assert (C : PyStr.contains "/" (o ++ "/" ++ mid ++ "/" ++ ch)%string = true).
  { apply contains_spec. now exists o, (mid ++ "/" ++ ch)%string. }
  rewrite C.
  change (o ++ "/" ++ mid ++ "/" ++ ch)%string
    with (o ++ String "/" (mid ++ String "/" ch))%string.
  rewrite (split_app_sep "/" o _ Ho), (split_app_sep "/" mid _ Hm),
    (split_no_sep "/" ch Hc).
  reflexivity.
Qed.

Lemma from_spec_three_fields_witness :
  @from_spec Binstar ∅ "alice/staging/test" None =
  Ok {| token := None; owner := "alice"; channel := "test"; _cli := None; site := None |}.
Proof.
  exact (from_spec_three_fields ∅ "alice" "staging" "test" None eq_refl eq_refl eq_refl).
Defined.

(** X3: a destination returned by [from_spec] has no ['/'] in its owner
    nor in its channel, holds the token of the environment ([None] when
    [BINSTAR_TOKEN] is not set) and the site given, and has no client yet. *)
Theorem from_spec_result (environ : gmap string string) (spec : string)
    (st : option string) (d : AnacondaClientChannelDest Binstar) :
  from_spec environ spec st = Ok d ->
  PyStr.count "/" (owner d) = 0 /\ PyStr.count "/" (channel d) = 0 /\
  token d = environ !! "BINSTAR_TOKEN" /\ site d = st /\ _cli d = None.
Proof.
  unfold from_spec. rewrite contains_char_count.
  pose proof (split_fields_free "/" spec) as F.
  destruct (PyStr.count "/" spec) as [|n] eqn:E; cbn [Nat.eqb negb].
  - intros [= <-]. cbn. auto.
  - destruct (PyStr.split "/" spec) as [|a [|b [|c [|x l]]]]; try discriminate.
    cbn. intros [= <-]. cbn.
    apply Forall_cons in F as [Fa F]. apply Forall_cons in F as [_ F].
    apply Forall_cons in F as [Fc _]. auto.
Qed.

Lemma from_spec_result_witness :
  PyStr.count "/"
    (owner (init_channel_dest (Cli := Binstar) None "alice" "test" None)) = 0.
Proof.
  exact (proj1 (from_spec_result ∅ "alice//test" None
                  (init_channel_dest None "alice" "test" None) eq_refl)).
Defined.

(** ** [AnacondaClientChannelDest.make_available]: what every call does *)

Section EveryCall.

Context {R : Type} `{Remote R}.

(** X4: calls change nothing of an instance but its cached client: the
    token, owner, channel and site it was constructed with stay, through
    any sequence of calls, raising or not. *)
Theorem run_calls_keeps_fields (calls : list (MetaData * string * bool)) (s : St R) :
  let self' := fst (run_calls calls s) in
  token self' = token (fst s) /\ owner self' = owner (fst s) /\
  channel self' = channel (fst s) /\ site self' = site (fst s).
Proof.
  cbv zeta. revert s. induction calls as [|[[meta path] jb] rest IH]; intros s.
  - repeat split.
  - cbn [run_calls]. destruct (IH (call_state meta path jb s)) as (T & O & C & S0).
    destruct (call_state_run meta path jb s) as [Hs _].
    rewrite T, O, C, S0, Hs. repeat split.
Qed.

(** X5: every call, whatever branch it takes and whether it raises or not,
    asks the server its two questions once each, for the instance's owner:
    first whether the owner has the distribution, then whether it is on the
    instance's channel. *)
Theorem call_queries_once (meta : MetaData) (path : string) (just_built : bool)
    (s : St R) :
  let d := new_events (snd s) (snd (call_state meta path just_built s)) in
  let c := Some (client_in_use s) in
  List.filter is_query d =
    [EvDistributionExists c (owner (fst s)) meta;
     EvDistributionExistsOnChannel c (owner (fst s)) meta (channel (fst s))].
Proof.
  cbv zeta. rewrite new_events_run, List.filter_app.
  assert (B : List.filter is_query (branch_events meta path just_built s) = []).
  { unfold branch_events.
    destruct (already_on_channel meta s), (already_with_owner meta s), just_built;
      reflexivity. }
  rewrite B, List.app_nil_r. unfold preamble. now destruct (_cli (fst s)).
Qed.

(** X6: a call logs a warning exactly when the artefact was just built and
    the server already has the distribution, on the channel or with the
    owner: the built one is then assumed to be the same as the remote one. *)
Theorem call_warns_iff (meta : MetaData) (path : string) (just_built : bool)
    (s : St R) :
  let d := new_events (snd s) (snd (call_state meta path just_built s)) in
  occurrences is_warn d =
  if just_built && (already_on_channel meta s || already_with_owner meta s)
  then 1 else 0.
Proof.
  cbv zeta. rewrite new_events_run, occurrences_app.
  assert (P : occurrences is_warn (preamble meta s) = 0).
  { unfold preamble. now destruct (_cli (fst s)). }
  rewrite P. unfold branch_events.
  destruct (already_on_channel meta s), (already_with_owner meta s), just_built;
    reflexivity.
Qed.


(** X8: a call never both uploads and links: it does one of the two, once,
    or neither, and with neither the server is left as it was. *)
Theorem at_most_one_action (meta : MetaData) (path : string) (just_built : bool)
    (s : St R) :
  let s' := call_state meta path just_built s in
  let d := new_events (snd s) (snd s') in
  match occurrences is_upload d, occurrences is_link d with
  | 0, 0 => remote (snd s') = remote (snd s)
  | 1, 0 => already_on_channel meta s = false /\ already_with_owner meta s = false
  | 0, 1 => already_on_channel meta s = false /\ already_with_owner meta s = true
  | _, _ => False
  end.
Proof.
  cbv zeta. rewrite new_events_run, remote_run, !occurrences_app,
    preamble_no_upload, preamble_no_link.
  unfold branch_events, branch_remote.
  destruct (already_on_channel meta s), (already_with_owner meta s), just_built;
    cbn; auto.
Qed.

Lemma client_in_use_after_call (meta : MetaData) (path : string) (just_built : bool)
    (s : St R) :
  client_in_use (call_state meta path just_built s) = client_in_use s.
Proof.
  destruct (call_state_run meta path just_built s) as [Hs _].
  unfold client_in_use at 1. now rewrite Hs.
Qed.

(** After a call that found the distribution on the server or had a
    just-built artefact, the distribution is on the channel. *)
Lemma on_channel_after_call (meta : MetaData) (path : string) (just_built : bool)
    (s : St R) :
  publishing_shows R ->
  already_on_channel meta s || already_with_owner meta s || just_built = true ->
  already_on_channel meta (call_state meta path just_built s) = true.
Proof.
  intros [Up Link] Hf. unfold already_on_channel at 1.
  rewrite client_in_use_after_call, remote_run.
  destruct (call_state_run meta path just_built s) as [Hs _]. rewrite Hs.
  cbn [with_cli owner channel]. unfold branch_remote.
  destruct (already_on_channel meta s) eqn:Ec; [exact Ec|].
  destruct (already_with_owner meta s) eqn:Eo.
  - eapply Link. exact Eo.
  - destruct just_built; [apply Up | discriminate].
Qed.

(** X9: on a server where publishing shows, a call is not repeated in its
    effects: once a call has found the distribution on the server or was
    given a just-built artefact, any later call for the same distribution,
    with any path and flag, returns without upload or link and leaves the
    server as it is. *)
Theorem repeat_call_is_noop (meta : MetaData) (path path' : string)
    (just_built just_built' : bool) (s : St R) :
  publishing_shows R ->
  already_on_channel meta s || already_with_owner meta s || just_built = true ->
  let s1 := call_state meta path just_built s in
  let s2 := call_state meta path' just_built' s1 in
  let d := new_events (snd s1) (snd s2) in
  call_outcome meta path' just_built' s1 = Ok tt /\
  occurrences is_upload d = 0 /\ occurrences is_link d = 0 /\
  remote (snd s2) = remote (snd s1).
Proof.
  intros P Hf. cbv zeta.
  pose proof (on_channel_after_call meta path just_built s P Hf) as On.
  rewrite call_outcome_run, new_events_run, remote_run, !occurrences_app,
    preamble_no_upload, preamble_no_link.
  unfold cross_owner_copy, branch_events, branch_remote. rewrite On.
  destruct just_built'; repeat split.
Qed.

(** X10: the client of a destination made by [from_spec] is constructed, in
    its first call, from the token of the environment and the site given to
    [from_spec]; with [BINSTAR_TOKEN] not set the token is [None]. *)
Theorem from_spec_client (environ : gmap string string) (spec : string)
    (st : option string) (dest : AnacondaClientChannelDest Binstar)
    (meta : MetaData) (path : string) (just_built : bool) (w : World R) :
  from_spec environ spec st = Ok dest ->
  let d := new_events w (snd (call_state meta path just_built (dest, w))) in
  List.filter is_get_binstar d =
    [EvGetBinstar (environ !! "BINSTAR_TOKEN") st
       {| cli_id := next_id w; cli_token := environ !! "BINSTAR_TOKEN";
          cli_site := st |}].
Proof.
  intros F. cbv zeta.
  destruct (from_spec_fields environ spec st dest F) as (T & S0 & C).
  rewrite (new_events_run meta path just_built (dest, w)), call_get_binstar.
  unfold client_in_use. cbn [fst snd]. now rewrite C, T, S0.
Qed.

End EveryCall.

(** ** [DirectoryDestination]: construction on every file system *)

Section DirectoryInit.

Variables expanduser abspath : string -> string.

Lemma mkdir_chain_grown (ps : list string) :
  forall t : gmap string node, grown t (snd (Os.mkdir_chain ps t)).
Proof.
  induction ps as [|p ps IH]; intros t; cbn [Os.mkdir_chain].
  - apply grown_refl.
  - destruct (Os.stat t p) as [[data mode|]|] eqn:E.
    + apply grown_refl.
    + apply IH.
    + eapply grown_trans; [apply grown_insert, E | apply IH].
Qed.

Lemma makedirs_grown (name : string) (t : gmap string node) :
  grown t (snd (Os.makedirs name t)).
Proof.
  unfold Os.makedirs, bind.
  pose proof (mkdir_chain_grown (Os.ancestors name) t) as G.
  destruct (Os.mkdir_chain (Os.ancestors name) t) as [[[]|e] t1]; cbn [snd] in *.
  - destruct (Os.stat t1 name) eqn:E; cbn [snd]; [exact G|].
    eapply grown_trans; [exact G | apply grown_insert, E].
  - exact G.
Qed.

(** X11: a destination that [__init__] returns is on the expanded,
    absolute path, and that path is a directory when it returns. *)
Theorem directory_init_returns_directory (directory : string) (h h' : Host)
    (dest : DirectoryDestination.t) :
  DirectoryDestination.__init__ expanduser abspath directory h = (Ok dest, h') ->
  DirectoryDestination.directory dest = abspath (expanduser directory) /\
  Os.isdir (fs h') (DirectoryDestination.directory dest) = true.
Proof.
  unfold DirectoryDestination.__init__, DirectoryDestination.os_test,
    DirectoryDestination.os_call, bind, ret, raise.
  set (d := abspath (expanduser directory)).
  destruct (Os.path_exists (fs h) d); cbn [negb]; cbv beta iota.
  - destruct (Os.isdir (fs h) d) eqn:D; cbn [negb]; [|discriminate].
    intros [= <- <-]. auto.
  - destruct (Os.makedirs d (fs h)) as [[[]|e] t']; [|discriminate].
    cbn [fs]. destruct (Os.isdir t' d) eqn:D; cbn [negb]; [|discriminate].
    intros [= <- <-]. auto.
Qed.

(** X12: constructing a destination, returning or raising, removes and
    rewrites nothing: every path keeps what it named, except that paths
    naming nothing may have become directories. *)
Theorem directory_init_only_adds_directories (directory : string) (h : Host) :
  grown (fs h) (fs (snd (DirectoryDestination.__init__ expanduser abspath directory h))).
Proof.
  unfold DirectoryDestination.__init__, DirectoryDestination.os_test,
    DirectoryDestination.os_call, bind, ret, raise.
  set (d := abspath (expanduser directory)).
  destruct (Os.path_exists (fs h) d); cbn [negb]; cbv beta iota.
  - destruct (Os.isdir (fs h) d); cbn [negb snd]; apply grown_refl.
  - pose proof (makedirs_grown d (fs h)) as G.
    destruct (Os.makedirs d (fs h)) as [[[]|e] t']; cbn [snd fs] in *.
    + destruct (Os.isdir t' d); cbn [negb snd fs]; exact G.
    + exact G.
Qed.

(** X13: when the path does not exist and a regular file stands where a
    directory above it should be, construction raises the [OSError] of
    [os.makedirs], and no destination is returned. *)
Theorem directory_init_blocked (directory : string) (h : Host) :
  let d := abspath (expanduser directory) in
  Os.path_exists (fs h) d = false ->
  Exists (fun a => Os.isfile (fs h) a = true) (Os.ancestors d) ->
  exists t',
    DirectoryDestination.__init__ expanduser abspath directory h =
    (Raise (OSError "Not a directory"),
     {| fs := t'; journal := journal h ++ [Makedirs d] |}).
Proof.
  cbv zeta. intros E X.
  unfold DirectoryDestination.__init__, DirectoryDestination.os_test,
    DirectoryDestination.os_call, bind, ret, raise.
  rewrite E. cbn [negb]. cbv beta iota.
  destruct (mkdir_chain_blocked _ (fs h) X) as [t' Hr].
  unfold Os.makedirs, bind. rewrite Hr. now exists t'.
Qed.

End DirectoryInit.

(** ** [DirectoryDestination.make_available] on every file system *)

Section DirectoryCopy.

Local Open Scope string_scope.

(** What can receive a copy is not the artefact itself. *)
Lemma receives_not_self (t : gmap string node) (src target : string) (n : node) :
  Os.stat t src = Some n -> Os.receives t src target = true -> src <> target.
Proof.
  intros S0 X Q. unfold Os.receives in X. rewrite <- Q, S0 in X.
  destruct n; [|discriminate]. now rewrite String.eqb_refl in X.
Qed.

(** X14: copying the same just-built artefact a second time returns again
    and leaves the file system exactly as the first copy left it, when the
    artefact's permission bits let its owner write: the first copy gives the
    target those bits, and the second writes over it. *)
Theorem directory_copy_twice (self : DirectoryDestination.t) (meta : MetaData)
    (src : string) (h : Host) (data : string) (mode : nat) :
  let dir := DirectoryDestination.directory self in
  let dst := Os.join dir (Os.basename src) in
  Os.isdir (fs h) dir = true ->
  Os.stat (fs h) src = Some (File data mode) ->
  Os.receives (fs h) src dst = true ->
  Os.writable mode = true ->
  let h1 := snd (DirectoryDestination.make_available self meta src true h) in
  let r2 := DirectoryDestination.make_available self meta src true h1 in
  fst r2 = Ok tt /\ fs (snd r2) = fs h1.
Proof.
  intros dir dst D S0 X W. cbv zeta.
  rewrite (copy_into_directory self meta src h data mode D S0 X). cbn [snd].
  pose proof (receives_not_self _ _ _ _ S0 X) as Ns.
  pose proof (receives_not_root _ _ _ X) as Nr.
  assert (Nd : dst <> dir).
  { intros E. unfold Os.receives in X. unfold Os.isdir in D.
    rewrite E in X. destruct (Os.stat (fs h) dir) as [[]|]; discriminate. }
  rewrite (copy_into_directory self meta src _ data mode); cbn [fs fst snd].
  - split; [reflexivity|]. apply insert_insert_eq.
  - unfold Os.isdir. rewrite stat_insert_ne by exact Nd. exact D.
  - rewrite stat_insert_ne by (intros E; apply Ns; symmetry; exact E). exact S0.
  - unfold Os.receives. rewrite stat_insert_eq by exact Nr.
    apply String.eqb_neq in Ns. fold dir dst. rewrite Ns. exact W.
Qed.

(** X15: a just-built artefact whose path, absolute and normalised, names
    nothing makes the call raise the [IOError] of [shutil.copy], after the
    line is printed; the file system is left as it was. *)
Theorem directory_copy_missing (self : DirectoryDestination.t) (meta : MetaData)
    (src : string) (h : Host) :
  Os.canonical src = true ->
  Os.stat (fs h) src = None ->
  DirectoryDestination.make_available self meta src true h =
    (Raise (IOError "No such file or directory"),
     {| fs := fs h;
        journal := (journal h ++ [Print meta src true;
                                  Copy src (DirectoryDestination.directory self)])%list |}).
Proof.
  intros _ S0.
  unfold DirectoryDestination.make_available, DirectoryDestination.print,
    DirectoryDestination.os_call, bind, modify, Os.copy. cbn [fs journal].
  assert (P : Os.path_exists (fs h) src = false) by (unfold Os.path_exists; now rewrite S0).
  destruct (Os.isdir (fs h) (DirectoryDestination.directory self));
    rewrite P, andb_false_r, S0, <- List.app_assoc; reflexivity.
Qed.

(** X16: whatever the call does and however it ends, it touches at most the
    one path [shutil.copy] writes to, and it has made its print and copy
    calls exactly when [just_built]. *)
Theorem directory_copy_frame (self : DirectoryDestination.t) (meta : MetaData)
    (src : string) (just_built : bool) (h : Host) :
  let dir := DirectoryDestination.directory self in
  let h' := snd (DirectoryDestination.make_available self meta src just_built h) in
  (forall q, q <> copy_target (fs h) src dir -> Os.stat (fs h') q = Os.stat (fs h) q) /\
  journal h' = (journal h ++ (if just_built
                              then [Print meta src true; Copy src dir] else []))%list.
Proof.
  cbv zeta. destruct just_built.
  - unfold DirectoryDestination.make_available, DirectoryDestination.print,
      DirectoryDestination.os_call, bind, modify, Os.copy, copy_target.
    cbn [fs journal].
    set (dir := DirectoryDestination.directory self).
    set (tgt := if Os.isdir (fs h) dir then Os.join dir (Os.basename src) else dir).
    assert (F : forall has_parent : bool,
      let r := (if String.eqb src tgt && Os.path_exists (fs h) src
                then (Raise (OSError "are the same file"), fs h)
                else match Os.stat (fs h) src with
                     | Some (File data mode) =>
                         match Os.stat (fs h) tgt with
                         | Some (File _ old) =>
                             if Os.writable old
                             then (Ok tt, <[tgt := File data mode]> (fs h))
                             else (Raise (IOError "Permission denied"), fs h)
                         | Some Dir => (Raise (IOError "Is a directory"), fs h)
                         | None =>
                             if negb has_parent
                             then (Raise (IOError "No such file or directory"), fs h)
                             else (Ok tt, <[tgt := File data mode]> (fs h))
                         end
                     | Some Dir => (Raise (IOError "Is a directory"), fs h)
                     | None => (Raise (IOError "No such file or directory"), fs h)
                     end) in
      forall q, q <> tgt -> Os.stat (snd r) q = Os.stat (fs h) q).
    { intros hp r q Q. subst r.
      destruct (String.eqb src tgt && Os.path_exists (fs h) src); [reflexivity|].
      destruct (Os.stat (fs h) src) as [[data mode|]|]; try reflexivity.
      destruct (Os.stat (fs h) tgt) as [[data' old|]|]; try reflexivity.
      - destruct (Os.writable old); cbn [snd]; [|reflexivity].
        apply stat_insert_ne. congruence.
      - destruct hp; cbn [negb snd]; [|reflexivity].
        apply stat_insert_ne. congruence. }
    subst tgt.
    destruct (Os.isdir (fs h) dir).
    + specialize (F true). cbv zeta in F.
      destruct (if String.eqb src (Os.join dir (Os.basename src)) && _ then _ else _)
        as [r t'] eqn:E in F |- *.
      cbn [snd fs journal] in *. split; [exact F | now rewrite <- List.app_assoc].
    + specialize (F (Os.isdir (fs h) (List.last (Os.ancestors dir) "/"))). cbv zeta in F.
      destruct (if String.eqb src dir && _ then _ else _) as [r t'] eqn:E in F |- *.
      cbn [snd fs journal] in *. split; [exact F | now rewrite <- List.app_assoc].
  - cbn. split; [reflexivity | now rewrite List.app_nil_r].
Qed.

End DirectoryCopy.

(** ** Constructing a destination, then making an artefact available *)

Section InitThenCopy.

Local Open Scope string_scope.

Variables expanduser abspath : string -> string.

Lemma length_append (a b : string) :
  String.length (a ++ b) = String.length a + String.length b.
Proof.
  induction a as [|x a IH]; [reflexivity|].
  rewrite append_cons. cbn [String.length]. now rewrite IH.
Qed.

(** [os.path.basename] has no ['/'] in it. *)
Lemma basename_no_slash (p : string) : PyStr.count "/" (Os.basename p) = 0.
Proof.
  unfold Os.basename. induction p as [|a p IH]; [reflexivity|].
  cbn [PyStr.after_last]. destruct (PyStr.after_last "/" p) as [|i].
  - cbn [PyStr.drop] in IH. destruct (Ascii.eqb a "/") eqn:E.
    + exact IH.
    + cbn [PyStr.drop PyStr.count]. now rewrite E, IH.
  - exact IH.
Qed.

(** Joining a name onto a directory gives a longer path. *)
Lemma join_longer (a b : string) :
  PyStr.count "/" b = 0 -> b <> "" ->
  String.length a < String.length (Os.join a b).
Proof.
  intros C N. unfold Os.join.
  assert (S0 : PyStr.startswith "/" b = false).
  { change "/" with (String "/"%char EmptyString). rewrite startswith_char.
    destruct b as [|x b]; [reflexivity|]. cbn [PyStr.count] in C.
    rewrite (Ascii.eqb_sym "/" x).
    destruct (Ascii.eqb x "/"); [discriminate | reflexivity]. }
  assert (L : 0 < String.length b) by (destruct b; [congruence | cbn; lia]).
  rewrite S0. destruct (String.eqb a "" || PyStr.endswith "/" a);
    rewrite !length_append; cbn [String.length]; lia.
Qed.

(** X17: constructing a destination on a path that does not exist and then
    making a just-built artefact available puts the artefact, bytes and
    mode, under its own name in the directory just created. *)
Theorem directory_init_then_copy (directory : string) (meta : MetaData)
    (src : string) (h : Host) (data : string) (mode : nat) :
  let d := abspath (expanduser directory) in
  let dst := Os.join d (Os.basename src) in
  Os.path_exists (fs h) d = false ->
  Forall (fun a => Os.isfile (fs h) a = false) (Os.ancestors d) ->
  Os.stat (fs h) src = Some (File data mode) ->
  Os.basename src <> "" ->
  Os.stat (fs h) dst = None ->
  exists h',
    bind (DirectoryDestination.__init__ expanduser abspath directory)
         (fun dest => DirectoryDestination.make_available dest meta src true) h
      = (Ok tt, h') /\
    Os.isdir (fs h') d = true /\
    Os.stat (fs h') dst = Some (File data mode) /\
    Os.stat (fs h') src = Some (File data mode).
Proof.
  intros d dst E F S0 B X.
  destruct (makedirs_makes d (fs h) E F) as (t' & Hr & Hd & _ & Ho & Hg).
  assert (L : String.length d < String.length dst).
  { apply join_longer; [apply basename_no_slash | exact B]. }
  assert (Nd : dst <> d) by (intros Q; rewrite Q in L; lia).
  assert (Na : ~ List.In dst (Os.ancestors d)).
  { intros I. pose proof (prefixes_at_sep_shorter d "") as P.
    rewrite List.Forall_forall in P. specialize (P dst I). cbn in P. lia. }
  assert (Ns : src <> dst) by congruence.
  assert (S1 : Os.stat t' src = Some (File data mode)).
  { destruct (Hg src) as [Q|[Q _]]; congruence. }
  assert (X0 : Os.stat t' dst = None) by now rewrite (Ho dst Nd Na).
  assert (X1 : Os.receives t' src dst = true) by (unfold Os.receives; now rewrite X0).
  unfold bind at 1.
  unfold DirectoryDestination.__init__, DirectoryDestination.os_test,
    DirectoryDestination.os_call, bind, ret, raise. fold d.
  rewrite E. cbn [negb]. cbv beta iota. rewrite Hr. cbn [fs]. rewrite Hd.
  cbn [negb].
  rewrite (copy_into_directory (DirectoryDestination.mk d) meta src _ data mode);
    cbn [fs DirectoryDestination.directory]; auto.
  eexists. split; [reflexivity|]. cbn [fs]. fold dst. repeat split.
  - unfold Os.isdir. rewrite stat_insert_ne by congruence. exact Hd.
  - apply stat_insert_eq. eapply stat_none_not_root, X0.
  - rewrite stat_insert_ne by congruence. exact S1.
Qed.

End InitThenCopy.

(** ** The further properties at work on the small server and host *)

Section MoreInstances.

Import ToyServer.

(** Publishing shows on the small server. *)
Lemma toy_publishing_shows : publishing_shows (list entry).
Proof.
  split.
  - intros r c c' m o ch. cbn. unfold holds, on_channel. cbn.
    now rewrite !String.eqb_refl.
  - intros r c c' c'' m o ch. cbn. induction r as [|e r IH]; cbn; [discriminate|].
    destruct (holds o m e) eqn:E; cbn.
    + intros _. unfold holds in *. cbn. rewrite E. unfold on_channel. cbn.
      now rewrite String.eqb_refl.
    + intros X. rewrite E. cbn. now apply IH.
Qed.


Lemma repeat_call_is_noop_witness :
  occurrences is_upload
    (new_events
       (snd (call_state pkg local_path true (alice, world elsewhere)))
       (snd (call_state pkg local_path true
               (call_state pkg local_path true (alice, world elsewhere))))) = 0.
Proof.
  exact (proj1 (proj2
    (repeat_call_is_noop pkg local_path local_path true true (alice, world elsewhere)
       toy_publishing_shows eq_refl))).
Defined.

Lemma from_spec_client_witness :
  List.filter is_get_binstar
    (new_events (world elsewhere)
       (snd (call_state pkg local_path true
               (init_channel_dest None "alice"%string "main"%string None,
                world elsewhere)))) =
  [EvGetBinstar None None {| cli_id := 0; cli_token := None; cli_site := None |}].
Proof.
  exact (from_spec_client ∅ "alice" None
           (init_channel_dest None "alice"%string "main"%string None)
           pkg local_path true (world elsewhere) eq_refl).
Defined.

End MoreInstances.

Lemma directory_init_returns_directory_witness :
  Os.isdir
    (fs (snd (DirectoryDestination.__init__ ToyHost.expanduser ToyHost.abspath
                "~/out/pkgs" ToyHost.host)))
    "/home/alice/out/pkgs" = true.
Proof.
  exact (proj2 (directory_init_returns_directory ToyHost.expanduser ToyHost.abspath
                  "~/out/pkgs" ToyHost.host
                  (snd (DirectoryDestination.__init__ ToyHost.expanduser ToyHost.abspath
                          "~/out/pkgs" ToyHost.host))
                  (DirectoryDestination.mk "/home/alice/out/pkgs") eq_refl)).
Defined.

Lemma directory_init_blocked_witness :
  exists t',
    DirectoryDestination.__init__ ToyHost.expanduser ToyHost.abspath
      "notes.txt/sub" ToyHost.host =
    (Raise (OSError "Not a directory"),
     {| fs := t'; journal := [Makedirs "/home/alice/notes.txt/sub"] |}).
Proof.
  apply (directory_init_blocked ToyHost.expanduser ToyHost.abspath
           "notes.txt/sub" ToyHost.host).
  - reflexivity.
  - apply Exists_cons_tl, Exists_cons_tl, Exists_cons_hd. reflexivity.
Defined.

Lemma directory_copy_twice_witness :
  fs (snd (DirectoryDestination.make_available (DirectoryDestination.mk "/home/alice")
             ToyServer.pkg ToyHost.artefact true
             (snd (DirectoryDestination.make_available
                     (DirectoryDestination.mk "/home/alice")
                     ToyServer.pkg ToyHost.artefact true ToyHost.host)))) =
  fs (snd (DirectoryDestination.make_available (DirectoryDestination.mk "/home/alice")
             ToyServer.pkg ToyHost.artefact true ToyHost.host)).
Proof.
  refine (proj2 (directory_copy_twice (DirectoryDestination.mk "/home/alice")
                   ToyServer.pkg ToyHost.artefact ToyHost.host
                   "BZh91AY"%string 420 _ _ _ _)).
  - reflexivity.
  - reflexivity.
  - reflexivity.
  - reflexivity.
Defined.

Lemma directory_copy_missing_witness :
  DirectoryDestination.make_available (DirectoryDestination.mk "/home/alice")
    ToyServer.pkg "/opt/conda-bld/linux-64/gone-1.0-0.tar.bz2" true ToyHost.host =
  (Raise (IOError "No such file or directory"),
   {| fs := ToyHost.disk;
      journal := [Print ToyServer.pkg "/opt/conda-bld/linux-64/gone-1.0-0.tar.bz2" true;
                  Copy "/opt/conda-bld/linux-64/gone-1.0-0.tar.bz2" "/home/alice"] |}).
Proof.
  exact (directory_copy_missing (DirectoryDestination.mk "/home/alice") ToyServer.pkg
           "/opt/conda-bld/linux-64/gone-1.0-0.tar.bz2" ToyHost.host eq_refl eq_refl).
Defined.

Lemma directory_init_then_copy_witness :
  exists h',
    bind (DirectoryDestination.__init__ ToyHost.expanduser ToyHost.abspath "~/out/pkgs")
         (fun dest => DirectoryDestination.make_available dest ToyServer.pkg
                        ToyHost.artefact true) ToyHost.host
      = (Ok tt, h') /\
    Os.isdir (fs h') "/home/alice/out/pkgs" = true /\
    Os.stat (fs h') "/home/alice/out/pkgs/pkg-1.0-0.tar.bz2" = Some (File "BZh91AY" 420) /\
    Os.stat (fs h') ToyHost.artefact = Some (File "BZh91AY" 420).
Proof.
  apply (directory_init_then_copy ToyHost.expanduser ToyHost.abspath "~/out/pkgs"
           ToyServer.pkg ToyHost.artefact ToyHost.host "BZh91AY"%string 420).
  - reflexivity.
  - repeat constructor.
  - reflexivity.
  - discriminate.
  - reflexivity.
Defined.
